(** * django-userena: signup lifecycle and profile visibility

    A shallow embedding of [userena/models.py] (the [UserenaSignup] and
    [UserenaBaseProfile] models) and of [userina/settings.py], with the
    properties of the account lifecycle, the notification mails and the
    profile-visibility decision proved over it.

    Conventions of the embedding:
    - Python strings are [string]; a character is a code point below 256.
    - A naive [datetime.datetime] is its number of microseconds since
      0001-01-01T00:00:00 (a [Z]); [datetime.timedelta] is a number of
      microseconds.  Both keep Python's range checks, which raise
      [OverflowError].
    - A method runs in a state-and-exception monad: a raised exception ends
      the method and leaves the state as it was when it was raised.
    - Framework collaborators (templates, mail transport, guardian, the
      random source, the image storage) are the fields of a type class. *)

From Stdlib Require Import ZArith String Ascii List Bool Lia.
From stdpp Require Import base option gmap strings list fin_maps pretty.

Local Open Scope string_scope.
Local Open Scope Z_scope.

(* String concatenation computes under [simpl] in this file. *)
#[local] Arguments String.append !s1 s2 : simpl nomatch.

(** ** Exceptions and the method monad *)

Inductive exn : Type :=
| OverflowError
| SMTPException
| IntegrityError.

Inductive result (A : Type) : Type :=
| Ok (a : A)
| Raise (e : exn).
Arguments Ok {A} a.
Arguments Raise {A} e.

(** [M S A]: a computation over a state [S] that returns an [A] or raises.
    The state is returned in both cases: what was written before a raise
    stays written. *)
Definition M (S A : Type) : Type := S -> result A * S.

Definition ret {S A : Type} (a : A) : M S A := fun s => (Ok a, s).

Definition raise {S A : Type} (e : exn) : M S A := fun s => (Raise e, s).

Definition bind {S A B : Type} (m : M S A) (k : A -> M S B) : M S B :=
  fun s =>
    match m s with
    | (Ok a, s') => k a s'
    | (Raise e, s') => (Raise e, s')
    end.

Definition gets {S A : Type} (f : S -> A) : M S A := fun s => (Ok (f s), s).

Definition modify {S : Type} (f : S -> S) : M S unit := fun s => (Ok tt, f s).

(** A pure computation that may raise, run inside a method. *)
Definition lift {S A : Type} (r : result A) : M S A := fun s => (r, s).

Declare Scope method_scope.
Delimit Scope method_scope with method.
Notation "x <- c ;; k" := (bind c (fun x => k))
  (at level 100, c at next level, right associativity) : method_scope.
Notation "c ;;; k" := (bind c (fun _ => k))
  (at level 100, right associativity) : method_scope.
Local Open Scope method_scope.

(** ** Python built-ins used by the models *)

(** [x in l] for a list of strings: some element is [==] to [x]. *)
Definition py_in (x : string) (l : list string) : bool :=
  existsb (String.eqb x) l.

(** Line boundaries of [unicode.splitlines] among the code points below
    256: LF, VT, FF, CR, FS, GS, RS and NEL. *)
Definition is_linebreak (c : ascii) : bool :=
  match N_of_ascii c with
  | 10%N | 11%N | 12%N | 13%N | 28%N | 29%N | 30%N | 133%N => true
  | _ => false
  end.

Definition LF : ascii := ascii_of_N 10.
Definition CR : ascii := ascii_of_N 13.

(** [splitlines_from line s]: the scan of [str.splitlines()] with [line]
    the part of the current line already read.  A boundary closes the
    current line (a CR LF pair is one boundary); the text after the last
    boundary is a line only when it is not empty. *)
Fixpoint splitlines_from (line s : string) : list string :=
  match s with
  | EmptyString => if String.eqb line "" then [] else [line]
  | String c rest =>
      if is_linebreak c then
        line ::
          (if Ascii.eqb c CR then
             match rest with
             | String c' rest' =>
                 if Ascii.eqb c' LF then splitlines_from "" rest'
                 else splitlines_from "" rest
             | EmptyString => splitlines_from "" rest
             end
           else splitlines_from "" rest)
      else splitlines_from (line ++ String c "") rest
  end.

Definition splitlines (s : string) : list string := splitlines_from "" s.

(** [''.join(lines)] *)
Definition join_empty (lines : list string) : string := String.concat "" lines.

(** The subject clean-up of the three mails: [''.join(subject.splitlines())]. *)
Definition single_line (subject : string) : string :=
  join_empty (splitlines subject).

(** The text with every line-boundary character dropped. *)
Fixpoint drop_linebreaks (s : string) : string :=
  match s with
  | EmptyString => EmptyString
  | String c rest =>
      if is_linebreak c then drop_linebreaks rest
      else String c (drop_linebreaks rest)
  end.

(** No character of [s] is a line boundary. *)
Fixpoint no_linebreak (s : string) : bool :=
  match s with
  | EmptyString => true
  | String c rest => negb (is_linebreak c) && no_linebreak rest
  end.

(** [c in s] for a character. *)
Fixpoint occurs (c : ascii) (s : string) : bool :=
  match s with
  | EmptyString => false
  | String c' rest => Ascii.eqb c c' || occurs c rest
  end.

(** ** [datetime] *)

Definition datetime : Type := Z.
Definition timedelta : Type := Z.

Definition US_PER_DAY : Z := 86400 * 1000000.

(** [date.max.toordinal()]: 9999-12-31 is day 3652059 counted from
    0001-01-01 as day 1. *)
Definition MAXORDINAL : Z := 3652059.

(** [datetime.min] and [datetime.max] as microsecond counts. *)
Definition datetime_min : datetime := 0.
Definition datetime_max : datetime := MAXORDINAL * US_PER_DAY - 1.

Definition in_datetime_range (t : Z) : bool :=
  (datetime_min <=? t) && (t <=? datetime_max).

(** [datetime.timedelta(days=d)]: at most 999999999 days either way. *)
Definition timedelta_days (d : Z) : result timedelta :=
  if (-999999999 <=? d) && (d <=? 999999999) then Ok (d * US_PER_DAY)
  else Raise OverflowError.

(** [t + delta] on a datetime: "date value out of range" when the sum
    leaves [datetime.min .. datetime.max]. *)
Definition datetime_add (t : datetime) (delta : timedelta) : result datetime :=
  if in_datetime_range (t + delta) then Ok (t + delta)
  else Raise OverflowError.

(** The datetime of midnight on the day with the given ordinal. *)
Definition midnight (ordinal : Z) : datetime := (ordinal - 1) * US_PER_DAY.

(** ** Data model *)

(** [django.contrib.auth.models.User], the fields the models read. *)
Record User : Type := {
  username : string;
  email : string;
  date_joined : datetime
}.

(** [django.contrib.sites.models.Site] *)
Record Site : Type := {
  domain : string;
  site_name : string
}.

(** What a view passes as the viewing [user]: a [User] instance, or the
    [AnonymousUser] of an unauthenticated request, which is not one. *)
Inductive Viewer : Type :=
| UserInstance (u : User)
| AnonymousUser.

(** [isinstance(user, User)] *)
Definition isinstance_User (v : Viewer) : bool :=
  match v with
  | UserInstance _ => true
  | AnonymousUser => false
  end.

(** [UserenaSignup]: the model's fields, with the primary key [id] that
    Django adds ([None] until the first save). *)
Record UserenaSignup : Type := {
  id : option Z;
  user : User;
  last_active : option datetime;
  activation_key : string;
  activation_notification_send : bool;
  email_unconfirmed : string;
  email_confirmation_key : string;
  email_confirmation_key_created : option datetime
}.

(** [UserenaBaseProfile]: [mugshot] is the stored file's name, empty when
    no image was uploaded; [privacy] is a [CharField], any string. *)
Record UserenaBaseProfile : Type := {
  profile_user : User;
  mugshot : string;
  privacy : string
}.

(** Attribute assignments on a [UserenaSignup] instance. *)
Definition set_id (v : option Z) (r : UserenaSignup) : UserenaSignup :=
  {| id := v; user := user r; last_active := last_active r;
     activation_key := activation_key r;
     activation_notification_send := activation_notification_send r;
     email_unconfirmed := email_unconfirmed r;
     email_confirmation_key := email_confirmation_key r;
     email_confirmation_key_created := email_confirmation_key_created r |}.

Definition set_email_unconfirmed (v : string) (r : UserenaSignup) : UserenaSignup :=
  {| id := id r; user := user r; last_active := last_active r;
     activation_key := activation_key r;
     activation_notification_send := activation_notification_send r;
     email_unconfirmed := v;
     email_confirmation_key := email_confirmation_key r;
     email_confirmation_key_created := email_confirmation_key_created r |}.

Definition set_email_confirmation_key (v : string) (r : UserenaSignup) : UserenaSignup :=
  {| id := id r; user := user r; last_active := last_active r;
     activation_key := activation_key r;
     activation_notification_send := activation_notification_send r;
     email_unconfirmed := email_unconfirmed r;
     email_confirmation_key := v;
     email_confirmation_key_created := email_confirmation_key_created r |}.

Definition set_email_confirmation_key_created (v : option datetime)
    (r : UserenaSignup) : UserenaSignup :=
  {| id := id r; user := user r; last_active := last_active r;
     activation_key := activation_key r;
     activation_notification_send := activation_notification_send r;
     email_unconfirmed := email_unconfirmed r;
     email_confirmation_key := email_confirmation_key r;
     email_confirmation_key_created := v |}.

(** ** Configuration *)

(** A value of a settings attribute. *)
Inductive pyval : Type :=
| PyInt (n : Z)
| PyStr (s : string)
| PyBool (b : bool).

(** [getattr(settings, name, default)] on [django.conf.settings], the
    project's settings as a map from attribute names. *)
Definition getattr (settings : gmap string pyval) (name : string)
    (default : pyval) : pyval :=
  match settings !! name with
  | Some v => v
  | None => default
  end.

(** [userina/settings.py] *)
Module userina.
(** How long do people have to verify their account. *)
Definition USERINA_VERIFICATION_DAYS (settings : gmap string pyval) : pyval :=
  getattr settings "USERINA_VERIFICATION_DAYS" (PyInt 2).

(** The value inserted into the verification key once a key was used. *)
Definition USERINA_VERIFIED (settings : gmap string pyval) : pyval :=
  getattr settings "USERINA_VERIFIED" (PyStr "ALREADY_VERIFIED").
End userina.

(** Modelled from the spec: [userena/settings.py] is not among the sources;
    these are the values of [userena_settings] that [models.py] reads
    ("activation window length (days), secure-transport flag, default
    privacy level, mugshot size/crop policy, gravatar enable flag, default
    mugshot image or builtin-keyword, sentinel value representing a
    consumed activation key"), taken as they are. *)
Record UserenaSettings : Type := {
  USERENA_ACTIVATION_DAYS : Z;
  USERENA_ACTIVATED : string;
  USERENA_USE_HTTPS : bool;
  USERENA_MUGSHOT_GRAVATAR : bool;
  USERENA_MUGSHOT_SIZE : Z;
  USERENA_MUGSHOT_DEFAULT : string;
  USERENA_MUGSHOT_PATH : string;
  USERENA_DEFAULT_PRIVACY : string
}.

(** What the process is configured with: the project's Django settings and
    the [userena_settings] module. *)
Record Configuration : Type := {
  settings : gmap string pyval;
  userena_settings : UserenaSettings
}.

(** [settings.DEFAULT_FROM_EMAIL]; Django's own default when the project
    does not set it. *)
Definition DEFAULT_FROM_EMAIL (settings : gmap string pyval) : pyval :=
  getattr settings "DEFAULT_FROM_EMAIL" (PyStr "webmaster@localhost").

(** ** Mail, templates and the world *)

(** The arguments of one [send_mail] call. *)
Record Mail : Type := {
  subject : string;
  message : string;
  from_email : pyval;
  recipient_list : list string
}.

(** A value in a template context. *)
Inductive ctxval : Type :=
| CtxUser (u : User)
| CtxSite (s : Site)
| CtxStr (s : string)
| CtxInt (n : Z).

(** One [send_mail] call and whether it returned ([true]) or raised. *)
Record MailCall : Type := {
  mail : Mail;
  delivered : bool
}.

(** The state outside the instance at hand: the clock, the signup table,
    the mail calls made so far, the number of random salts drawn and the
    permission lookups made so far. *)
Record World : Type := {
  clock : datetime;
  db : gmap Z UserenaSignup;
  next_id : Z;
  mail_log : list MailCall;
  random_draws : nat;
  perm_lookups : list (Viewer * UserenaBaseProfile)
}.

(** A method call: the instance bound to [self] and the world. *)
Record Frame (T : Type) : Type := {
  self : T;
  world : World
}.
Arguments self {T} f.
Arguments world {T} f.
Arguments Build_Frame {T} self world.

Definition set_db (d : gmap Z UserenaSignup) (n : Z) (w : World) : World :=
  {| clock := clock w; db := d; next_id := n; mail_log := mail_log w;
     random_draws := random_draws w; perm_lookups := perm_lookups w |}.

Definition log_mail (c : MailCall) (w : World) : World :=
  {| clock := clock w; db := db w; next_id := next_id w;
     mail_log := mail_log w ++ [c];
     random_draws := random_draws w; perm_lookups := perm_lookups w |}.

Definition count_draw (w : World) : World :=
  {| clock := clock w; db := db w; next_id := next_id w;
     mail_log := mail_log w;
     random_draws := S (random_draws w); perm_lookups := perm_lookups w |}.

Definition log_perm_lookup (q : Viewer * UserenaBaseProfile) (w : World) : World :=
  {| clock := clock w; db := db w; next_id := next_id w;
     mail_log := mail_log w;
     random_draws := random_draws w; perm_lookups := perm_lookups w ++ [q] |}.

Definition set_clock (t : datetime) (w : World) : World :=
  {| clock := t; db := db w; next_id := next_id w; mail_log := mail_log w;
     random_draws := random_draws w; perm_lookups := perm_lookups w |}.

(** Run a computation on the world inside a method. *)
Definition in_world {T A : Type} (m : M World A) : M (Frame T) A :=
  fun f =>
    match m (world f) with
    | (r, w') => (r, {| self := self f; world := w' |})
    end.

(** Read and assign the instance's attributes. *)
Definition get_self {T : Type} : M (Frame T) T := gets self.

Definition set_self {T : Type} (g : T -> T) : M (Frame T) unit :=
  modify (fun f => {| self := g (self f); world := world f |}).

(** ** Collaborators *)

(** The framework and library functions the models call.  The mail
    transport is told how many calls came before; [random_salt n] is the
    salt of the [n]-th draw. *)
Class Collaborators : Type := {
  (** [django.template.loader.render_to_string(template_name, context)] *)
  render_to_string : string -> gmap string ctxval -> string;
  (** [Site.objects.get_current()] *)
  get_current : Site;
  (** whether the mail transport raises on this [send_mail] call *)
  transport_raises : nat -> Mail -> bool;
  (** [guardian.shortcuts.get_perms(user, obj)] *)
  get_perms : Viewer -> UserenaBaseProfile -> list string;
  (** [userena.utils.get_gravatar(email, size, default)] *)
  get_gravatar : string -> Z -> string -> string;
  (** the [url] of a stored mugshot file *)
  mugshot_url : string -> string;
  (** the salt of a draw of the random source *)
  random_salt : nat -> string;
  (** the hex digest of SHA-1, 40 characters *)
  sha_hexdigest : string -> string;
  sha_hexdigest_length : forall s, String.length (sha_hexdigest s) = 40%nat
}.

(** ** The models' methods *)

Section Models.
Context {C : Collaborators}.
Variable cfg : Configuration.

Let conf : UserenaSettings := userena_settings cfg.

(** [datetime.datetime.now()] *)
Definition datetime_now : M World datetime := gets clock.

(** [django.core.mail.send_mail]: the call is recorded; it raises when
    the transport does. *)
Definition send_mail (subject message : string) (from_email : pyval)
    (recipient_list : list string) : M World unit :=
  fun w =>
    let m := {| subject := subject; message := message;
                from_email := from_email;
                recipient_list := recipient_list |} in
    if transport_raises (length (mail_log w)) m
    then (Raise SMTPException, log_mail {| mail := m; delivered := false |} w)
    else (Ok tt, log_mail {| mail := m; delivered := true |} w).

(** Modelled from the spec: [userena.utils.generate_sha1] is not among
    the sources.  "Secret Generator: generate(seed) -> (salt, opaque
    40-character-equivalent hex-style token)", the token "derived from a
    random salt plus the account's stable username-equivalent, hashed":
    a salt is drawn and the digest of salt plus seed is returned with
    it. *)
Definition generate_sha1 (seed : string) : M World (string * string) :=
  fun w =>
    let salt := random_salt (random_draws w) in
    (Ok (salt, sha_hexdigest (salt ++ seed)), count_draw w).

(** Some row of the table other than the one under [own] belongs to the
    user [u].  Users are told apart by their username, which [auth.User]
    keeps unique. *)
Definition user_has_other_row (own : option Z) (u : User)
    (d : gmap Z UserenaSignup) : bool :=
  existsb
    (fun kr : Z * UserenaSignup =>
       negb (bool_decide (own = Some (fst kr)))
       && String.eqb (username (user (snd kr))) (username u))
    (map_to_list d).

(** Whether the table takes the instance.  [user] is a [OneToOneField],
    so the column is unique: no other row may belong to the same user;
    and a row that is new goes under the next key, which must be free (a
    database refuses a primary key that is in use). *)
Definition save_accepted (s : UserenaSignup) (w : World) : bool :=
  negb (user_has_other_row (id s) (user s) (db w))
  && match id s with
     | Some _ => true
     | None => negb (bool_decide (is_Some (db w !! next_id w)))
     end.

(** [self.save()], the framework's [Model.save].  When the table takes
    the instance, the row under the instance's key becomes the instance
    (an upsert of that one row), and an instance without a key is given
    the next one.  When it does not, the database raises [IntegrityError]
    and neither the table nor the instance changes. *)
Definition save : M (Frame UserenaSignup) unit :=
  fun f =>
    let w := world f in
    if save_accepted (self f) w then
      match id (self f) with
      | Some k =>
          (Ok tt, {| self := self f;
                     world := set_db (<[k := self f]> (db w)) (next_id w) w |})
      | None =>
          let k := next_id w in
          let row := set_id (Some k) (self f) in
          (Ok tt, {| self := row;
                     world := set_db (<[k := row]> (db w)) (k + 1) w |})
      end
    else (Raise IntegrityError, f).

(** [get_perms(user, obj)], recorded as a lookup. *)
Definition lookup_perms (viewer : Viewer) (obj : UserenaBaseProfile)
    : M World (list string) :=
  fun w => (Ok (get_perms viewer obj), log_perm_lookup (viewer, obj) w).

(** The [protocol] of both mail methods. *)
Definition protocol : string :=
  if USERENA_USE_HTTPS conf then "https" else "http".

(** The context dictionary of [send_confirmation_email]. *)
Definition confirmation_context (s : UserenaSignup) : gmap string ctxval :=
  <["user" := CtxUser (user s)]>
    (<["new_email" := CtxStr (email_unconfirmed s)]>
       (<["protocol" := CtxStr protocol]>
          (<["confirmation_key" := CtxStr (email_confirmation_key s)]>
             (<["site" := CtxSite get_current]> ∅)))).

(** The context dictionary of [send_activation_email]. *)
Definition activation_context (s : UserenaSignup) : gmap string ctxval :=
  <["user" := CtxUser (user s)]>
    (<["protocol" := CtxStr protocol]>
       (<["activation_days" := CtxInt (USERENA_ACTIVATION_DAYS conf)]>
          (<["activation_key" := CtxStr (activation_key s)]>
             (<["site" := CtxSite get_current]> ∅)))).

(** [UserenaSignup.send_confirmation_email] *)
Definition send_confirmation_email : M (Frame UserenaSignup) unit :=
  s <- get_self ;;
  let context := confirmation_context s in
  (* Email to the old address *)
  let subject_old :=
    render_to_string "userena/emails/confirmation_email_subject_old.txt" context in
  let subject_old := single_line subject_old in
  let message_old :=
    render_to_string "userena/emails/confirmation_email_message_old.txt" context in
  in_world (send_mail subject_old message_old
              (DEFAULT_FROM_EMAIL (settings cfg)) [email (user s)]) ;;;
  (* Email to the new address *)
  let subject_new :=
    render_to_string "userena/emails/confirmation_email_subject_new.txt" context in
  let subject_new := single_line subject_new in
  let message_new :=
    render_to_string "userena/emails/confirmation_email_message_new.txt" context in
  in_world (send_mail subject_new message_new
              (DEFAULT_FROM_EMAIL (settings cfg)) [email_unconfirmed s]).

(** [UserenaSignup.change_email] *)
Definition change_email (new_email : string) : M (Frame UserenaSignup) unit :=
  set_self (set_email_unconfirmed new_email) ;;;
  s <- get_self ;;
  salt_hash <- in_world (generate_sha1 (username (user s))) ;;
  set_self (set_email_confirmation_key (snd salt_hash)) ;;;
  now <- in_world datetime_now ;;
  set_self (set_email_confirmation_key_created (Some now)) ;;;
  save ;;;
  (* Send email for activation *)
  send_confirmation_email.

(** [UserenaSignup.activation_key_expired] *)
Definition activation_key_expired : M (Frame UserenaSignup) bool :=
  s <- get_self ;;
  expiration_days <- lift (timedelta_days (USERENA_ACTIVATION_DAYS conf)) ;;
  expiration_date <- lift (datetime_add (date_joined (user s)) expiration_days) ;;
  if String.eqb (activation_key s) (USERENA_ACTIVATED conf) then ret true
  else
    now <- in_world datetime_now ;;
    if now >=? expiration_date then ret true
    else ret false.

(** [UserenaSignup.send_activation_email] *)
Definition send_activation_email : M (Frame UserenaSignup) unit :=
  s <- get_self ;;
  let context := activation_context s in
  let subject :=
    render_to_string "userena/emails/activation_email_subject.txt" context in
  let subject := single_line subject in
  let message :=
    render_to_string "userena/emails/activation_email_message.txt" context in
  in_world (send_mail subject message
              (DEFAULT_FROM_EMAIL (settings cfg)) [email (user s)]).

(** The default images that only Gravatar can serve. *)
Definition gravatar_builtins : list string :=
  ["404"; "mm"; "identicon"; "monsterid"; "wavatar"].

(** [UserenaBaseProfile.get_mugshot_url]; [None] is Python's [None]. *)
Definition get_mugshot_url : M (Frame UserenaBaseProfile) (option string) :=
  p <- get_self ;;
  (* First check for a mugshot and if any return that. *)
  if negb (String.eqb (mugshot p) "") then ret (Some (mugshot_url (mugshot p)))
  (* Use Gravatar if the user wants to. *)
  else if USERENA_MUGSHOT_GRAVATAR conf then
    ret (Some (get_gravatar (email (profile_user p))
                 (USERENA_MUGSHOT_SIZE conf)
                 (USERENA_MUGSHOT_DEFAULT conf)))
  (* Gravatar not used, check for a default image. *)
  else if negb (py_in (USERENA_MUGSHOT_DEFAULT conf) gravatar_builtins) then
    ret (Some (USERENA_MUGSHOT_DEFAULT conf))
  else ret None.

(** [UserenaBaseProfile.can_view_profile] *)
Definition can_view_profile (viewer : Viewer)
    : M (Frame UserenaBaseProfile) bool :=
  p <- get_self ;;
  (* Everyone. *)
  if String.eqb (privacy p) "open" then ret true
  (* Registered users. *)
  else if String.eqb (privacy p) "registered" && isinstance_User viewer then
    ret true
  (* Checks done by guardian for owner and admins. *)
  else
    perms <- in_world (lookup_perms viewer p) ;;
    if py_in "view_profile" perms then ret true
    (* Fallback to closed profile. *)
    else ret false.

(** Calls of [change_email] on one instance, one after the other; each
    call comes with the time the clock shows when it is made, and a call
    that raises does not stop the caller from making the next one. *)
Fixpoint change_email_calls (calls : list (datetime * string))
    (f : Frame UserenaSignup) : Frame UserenaSignup :=
  match calls with
  | [] => f
  | (t, new_email) :: rest =>
      let f0 := {| self := self f; world := set_clock t (world f) |} in
      change_email_calls rest (snd (change_email new_email f0))
  end.

End Models.

(** ** Definitions the statements use *)

(** The expiry policy in the words of the specification: "expired if
    [activationKey == ALREADY_ACTIVATED] (already consumed) OR
    [now() >= user.createdAt + activationWindowDays]", with the window
    counted in microseconds. *)
Definition expired_by_policy (conf : UserenaSettings) (s : UserenaSignup)
    (now : datetime) : bool :=
  String.eqb (activation_key s) (USERENA_ACTIVATED conf)
  || (date_joined (user s) + USERENA_ACTIVATION_DAYS conf * US_PER_DAY <=? now).

(** [date_joined] is a datetime, and so is the expiry date: adding the
    window does not leave [datetime.min .. datetime.max]. *)
Definition expiry_representable (conf : UserenaSettings) (s : UserenaSignup) : Prop :=
  in_datetime_range (date_joined (user s)) = true /\
  in_datetime_range
    (date_joined (user s) + USERENA_ACTIVATION_DAYS conf * US_PER_DAY) = true.

(** The configuration with the two [USERINA_] attributes set in the
    project's settings. *)
Definition with_userina (days verified : pyval) (cfg : Configuration)
    : Configuration :=
  {| settings :=
       <["USERINA_VERIFICATION_DAYS" := days]>
         (<["USERINA_VERIFIED" := verified]> (settings cfg));
     userena_settings := userena_settings cfg |}.

(** The row as [change_email] leaves it in memory before the save: the new
    address, the key and its time stamp; every other field as it was. *)
Definition pending_change (new_email key : string) (now : datetime)
    (s : UserenaSignup) : UserenaSignup :=
  set_email_confirmation_key_created (Some now)
    (set_email_confirmation_key key (set_email_unconfirmed new_email s)).

(** The [send_mail] calls made between two states of the world. *)
Definition sent_during (before after : World) : list MailCall :=
  drop (length (mail_log before)) (mail_log after).

(** The key under which [save] writes an instance. *)
Definition row_key (s : UserenaSignup) (w : World) : Z :=
  match id s with
  | Some k => k
  | None => next_id w
  end.

Section Mails.
Context {C : Collaborators}.
Variable cfg : Configuration.

(** The key [change_email] stores when called in world [w] for [s]. *)
Definition fresh_key (s : UserenaSignup) (w : World) : string :=
  sha_hexdigest (random_salt (random_draws w) ++ username (user s)).

(** The row [change_email] saves, and the frame when it has saved and not
    yet sent anything. *)
Definition saved_row (new_email : string) (f : Frame UserenaSignup)
    : UserenaSignup :=
  set_id (Some (row_key (self f) (world f)))
    (pending_change new_email (fresh_key (self f) (world f))
       (clock (world f)) (self f)).

Definition saved_frame (new_email : string) (f : Frame UserenaSignup)
    : Frame UserenaSignup :=
  let w := world f in
  {| self := saved_row new_email f;
     world :=
       set_db
         (<[row_key (self f) w := saved_row new_email f]> (db w))
         (match id (self f) with Some _ => next_id w | None => next_id w + 1 end)
         (count_draw w) |}.

(** The frame when the save of [change_email] was refused: the instance
    holds the new values in memory, a salt was drawn, the table is as it
    was and nothing was sent. *)
Definition refused_frame (new_email : string) (f : Frame UserenaSignup)
    : Frame UserenaSignup :=
  {| self := pending_change new_email (fresh_key (self f) (world f))
               (clock (world f)) (self f);
     world := count_draw (world f) |}.

(** The mail to the old address, to the new address, and the activation
    mail, as the methods build them. *)
Definition confirmation_mail_old (s : UserenaSignup) : Mail :=
  {| subject :=
       single_line
         (render_to_string "userena/emails/confirmation_email_subject_old.txt"
            (confirmation_context cfg s));
     message :=
       render_to_string "userena/emails/confirmation_email_message_old.txt"
         (confirmation_context cfg s);
     from_email := DEFAULT_FROM_EMAIL (settings cfg);
     recipient_list := [email (user s)] |}.

Definition confirmation_mail_new (s : UserenaSignup) : Mail :=
  {| subject :=
       single_line
         (render_to_string "userena/emails/confirmation_email_subject_new.txt"
            (confirmation_context cfg s));
     message :=
       render_to_string "userena/emails/confirmation_email_message_new.txt"
         (confirmation_context cfg s);
     from_email := DEFAULT_FROM_EMAIL (settings cfg);
     recipient_list := [email_unconfirmed s] |}.

Definition activation_mail (s : UserenaSignup) : Mail :=
  {| subject :=
       single_line
         (render_to_string "userena/emails/activation_email_subject.txt"
            (activation_context cfg s));
     message :=
       render_to_string "userena/emails/activation_email_message.txt"
         (activation_context cfg s);
     from_email := DEFAULT_FROM_EMAIL (settings cfg);
     recipient_list := [email (user s)] |}.

(** Some call of the log went to exactly these recipients. *)
Definition attempted_to (recipients : list string) (log : list MailCall) : Prop :=
  exists c, c ∈ log /\ recipient_list (mail c) = recipients.

End Mails.

(** ** The rest of [models.py] *)

(** [c.lower()] for a code point below 256: the letters A to Z and the
    capital letters of Latin-1 (192 to 222 without the multiplication sign
    215) move up by 32. *)
Definition lower_char (c : ascii) : ascii :=
  let n := N_of_ascii c in
  if ((65 <=? n) && (n <=? 90)
      || (192 <=? n) && (n <=? 222) && negb (n =? 215))%N
  then ascii_of_N (n + 32)
  else c.

(** [s.lower()] *)
Fixpoint lower (s : string) : string :=
  match s with
  | EmptyString => EmptyString
  | String c rest => String (lower_char c) (lower rest)
  end.

(** [split_from sep part s]: the scan of [s.split(sep)] for a separator of
    one character, with [part] the piece read since the last separator.
    The end of the text closes the last piece, empty or not. *)
Fixpoint split_from (sep : ascii) (part s : string) : list string :=
  match s with
  | EmptyString => [part]
  | String c rest =>
      if Ascii.eqb c sep then part :: split_from sep "" rest
      else split_from sep (part ++ String c "") rest
  end.

(** [s.split(sep)] *)
Definition split (sep : ascii) (s : string) : list string :=
  split_from sep "" s.

(** [parts[-1]] on what [split] returns; that list is never empty, so the
    subscript never fails and the default is never used. *)
Definition last_part (parts : list string) : string := List.last parts "".

(** [s[:n]] *)
Fixpoint slice_to (n : nat) (s : string) : string :=
  match n, s with
  | S n', String c rest => String c (slice_to n' rest)
  | _, _ => EmptyString
  end.

(** [str(instance.id)]: the decimal digits of a saved instance's key,
    ['None'] for an instance that was never saved. *)
Definition str_id (instance_id : option Z) : string :=
  match instance_id with
  | Some k => pretty k
  | None => "None"
  end.

Definition DOT : ascii := ascii_of_N 46.

(** The instance [p] with another [privacy]. *)
Definition set_privacy (v : string) (p : UserenaBaseProfile) : UserenaBaseProfile :=
  {| profile_user := profile_user p; mugshot := mugshot p; privacy := v |}.

(** The instance [r] with another [activation_key]. *)
Definition set_activation_key (v : string) (r : UserenaSignup) : UserenaSignup :=
  {| id := id r; user := user r; last_active := last_active r;
     activation_key := v;
     activation_notification_send := activation_notification_send r;
     email_unconfirmed := email_unconfirmed r;
     email_confirmation_key := email_confirmation_key r;
     email_confirmation_key_created := email_confirmation_key_created r |}.

(** The frame [f] when the clock shows [t]. *)
Definition at_time {T : Type} (t : datetime) (f : Frame T) : Frame T :=
  {| self := self f; world := set_clock t (world f) |}.

(** The configuration with another activation window. *)
Definition with_activation_days (days : Z) (cfg : Configuration) : Configuration :=
  {| settings := settings cfg;
     userena_settings :=
       {| USERENA_ACTIVATION_DAYS := days;
          USERENA_ACTIVATED := USERENA_ACTIVATED (userena_settings cfg);
          USERENA_USE_HTTPS := USERENA_USE_HTTPS (userena_settings cfg);
          USERENA_MUGSHOT_GRAVATAR := USERENA_MUGSHOT_GRAVATAR (userena_settings cfg);
          USERENA_MUGSHOT_SIZE := USERENA_MUGSHOT_SIZE (userena_settings cfg);
          USERENA_MUGSHOT_DEFAULT := USERENA_MUGSHOT_DEFAULT (userena_settings cfg);
          USERENA_MUGSHOT_PATH := USERENA_MUGSHOT_PATH (userena_settings cfg);
          USERENA_DEFAULT_PRIVACY := USERENA_DEFAULT_PRIVACY (userena_settings cfg) |} |}.

(** What [activation_key_expired] computes from the settings, the instance
    and the clock's time: the two datetime operations in the order of the
    method, then the two tests. *)
Definition expiry_verdict (conf : UserenaSettings) (s : UserenaSignup)
    (now : datetime) : result bool :=
  match timedelta_days (USERENA_ACTIVATION_DAYS conf) with
  | Raise e => Raise e
  | Ok expiration_days =>
      match datetime_add (date_joined (user s)) expiration_days with
      | Raise e => Raise e
      | Ok expiration_date =>
          Ok (String.eqb (activation_key s) (USERENA_ACTIVATED conf)
              || (expiration_date <=? now))
      end
  end.

Section Uploads.
Context {C : Collaborators}.
Variable cfg : Configuration.

(** [upload_to_mugshot(instance, filename)]; of [instance] the function
    reads the [id] only. *)
Definition upload_to_mugshot (instance_id : option Z) (filename : string)
    : M World string :=
  let extension := lower (last_part (split DOT filename)) in
  salt_hash <- generate_sha1 (str_id instance_id) ;;
  ret (USERENA_MUGSHOT_PATH (userena_settings cfg)
       ++ slice_to 10 (snd salt_hash) ++ String DOT "" ++ extension)%string.

End Uploads.

(** ** A concrete set of collaborators

    Used to run the methods on concrete inputs: templates that render to
    the template name, a line break and the new address, a digest that
    pads or cuts its input to 40 characters, and the mail transport and
    the permission table left to choose. *)

Fixpoint pad_to (n : nat) (s : string) : string :=
  match n with
  | O => EmptyString
  | S n' =>
      match s with
      | EmptyString => String "0" (pad_to n' EmptyString)
      | String c rest => String c (pad_to n' rest)
      end
  end.

Fixpoint pad_to_length (n : nat) : forall s, String.length (pad_to n s) = n :=
  match n with
  | O => fun _ => eq_refl
  | S n' =>
      fun s =>
        match s with
        | EmptyString => f_equal S (pad_to_length n' EmptyString)
        | String _ rest => f_equal S (pad_to_length n' rest)
        end
  end.

Definition demo_render (template_name : string) (context : gmap string ctxval)
    : string :=
  match context !! "new_email" with
  | Some (CtxStr e) =>
      template_name ++ String LF ("for " ++ e) ++ String CR (String LF "")
  | _ => template_name ++ String LF ""
  end.

Definition demo_collaborators (raises : nat -> Mail -> bool)
    (perms : Viewer -> UserenaBaseProfile -> list string) : Collaborators :=
  {| render_to_string := demo_render;
     get_current := {| domain := "example.com"; site_name := "example" |};
     transport_raises := raises;
     get_perms := perms;
     get_gravatar := fun e _ d => "http://www.gravatar.com/avatar/" ++ e ++ "?d=" ++ d;
     mugshot_url := fun name => "/media/" ++ name;
     random_salt := fun n => pad_to 5 (String (ascii_of_nat (97 + n)) "");
     sha_hexdigest := pad_to 40;
     sha_hexdigest_length := pad_to_length 40 |}.

(** A transport that never raises and one that raises on the call with
    the given number only. *)
Definition transport_up : nat -> Mail -> bool := fun _ _ => false.
Definition transport_down_at (k : nat) : nat -> Mail -> bool :=
  fun n _ => Nat.eqb n k.

Definition no_perms : Viewer -> UserenaBaseProfile -> list string :=
  fun _ _ => [].

Definition demo_settings (activation_days : Z) (mugshot_default : string)
    : UserenaSettings :=
  {| USERENA_ACTIVATION_DAYS := activation_days;
     USERENA_ACTIVATED := "ALREADY_ACTIVATED";
     USERENA_USE_HTTPS := false;
     USERENA_MUGSHOT_GRAVATAR := false;
     USERENA_MUGSHOT_SIZE := 80;
     USERENA_MUGSHOT_DEFAULT := mugshot_default;
     USERENA_MUGSHOT_PATH := "mugshots/";
     USERENA_DEFAULT_PRIVACY := "registered" |}.

Definition demo_cfg (activation_days : Z) : Configuration :=
  {| settings := ∅; userena_settings := demo_settings activation_days "identicon" |}.

(** 2011-01-01 is day 734138. *)
Definition alice : User :=
  {| username := "alice"; email := "alice@x.com";
     date_joined := midnight 734138 |}.

Definition alice_signup (key pending : string) : UserenaSignup :=
  {| id := Some 1; user := alice; last_active := None;
     activation_key := key;
     activation_notification_send := false;
     email_unconfirmed := pending; email_confirmation_key := "";
     email_confirmation_key_created := None |}.

Definition pending_key : string := "0123456789abcdef0123456789abcdef01234567".

Definition alice_profile (privacy : string) : UserenaBaseProfile :=
  {| profile_user := alice; mugshot := ""; privacy := privacy |}.

Definition demo_world (now : datetime) : World :=
  {| clock := now; db := {[ 1 := alice_signup pending_key "" ]}; next_id := 2;
     mail_log := []; random_draws := O; perm_lookups := [] |}.

Definition alice_frame (key pending : string) (now : datetime)
    : Frame UserenaSignup :=
  {| self := alice_signup key pending; world := demo_world now |}.

(** A second signup instance for alice, never saved, next to her row. *)
Definition alice_again (now : datetime) : Frame UserenaSignup :=
  {| self := set_id None (alice_signup pending_key "");
     world := demo_world now |}.

(** ** Lemmas on the built-ins *)

Lemma append_empty_r (s : string) : (s ++ "")%string = s.
Proof. induction s as [|c s IH]; simpl; [reflexivity | now rewrite IH]. Qed.

Lemma append_assoc (a b c : string) :
  ((a ++ b) ++ c)%string = (a ++ (b ++ c))%string.
Proof. induction a as [|x a IH]; simpl; [reflexivity | now rewrite IH]. Qed.

Lemma join_empty_cons (x : string) (xs : list string) :
  join_empty (x :: xs) = (x ++ join_empty xs)%string.
Proof.
  unfold join_empty. destruct xs as [|y ys]; simpl.
  - now rewrite append_empty_r.
  - reflexivity.
Qed.

Lemma LF_is_linebreak : is_linebreak LF = true.
Proof. reflexivity. Qed.

(** Joining the lines of a scan gives back the pending line followed by
    the rest without its boundaries. *)
Lemma join_splitlines_from (s line : string) :
  join_empty (splitlines_from line s) = (line ++ drop_linebreaks s)%string.
Proof.
  revert line. induction s as [|c rest IH]; intros line; simpl.
  - destruct (String.eqb_spec line "") as [->|_]; simpl.
    + reflexivity.
    + now rewrite append_empty_r.
  - destruct (is_linebreak c) eqn:Hc.
    + rewrite join_empty_cons. f_equal.
      destruct (Ascii.eqb c CR); [|apply (IH "")].
      destruct rest as [|c' rest']; [apply (IH "")|].
      destruct (Ascii.eqb_spec c' LF) as [->|_]; [|apply (IH "")].
      specialize (IH ""). simpl in IH.
      rewrite join_empty_cons in IH. exact IH.
    + rewrite IH, append_assoc. reflexivity.
Qed.

Lemma single_line_drop (s : string) : single_line s = drop_linebreaks s.
Proof. unfold single_line, splitlines. now rewrite join_splitlines_from. Qed.

Lemma drop_linebreaks_clean (s : string) : no_linebreak (drop_linebreaks s) = true.
Proof.
  induction s as [|c rest IH]; simpl; [reflexivity|].
  destruct (is_linebreak c) eqn:Hc; simpl; [exact IH|].
  now rewrite Hc, IH.
Qed.

Lemma single_line_clean (s : string) : no_linebreak (single_line s) = true.
Proof. rewrite single_line_drop. apply drop_linebreaks_clean. Qed.

(** A text without line boundaries has no LF and no CR in it. *)
Lemma no_linebreak_no_newline (s : string) :
  no_linebreak s = true -> occurs LF s = false /\ occurs CR s = false.
Proof.
  induction s as [|c rest IH]; cbn [no_linebreak occurs]; [split; reflexivity|].
  intros Hs. apply andb_true_iff in Hs. destruct Hs as [Hc Hrest].
  destruct (IH Hrest) as [Hlf Hcr]. rewrite Hlf, Hcr, !orb_false_r.
  split.
  - destruct (Ascii.eqb_spec LF c) as [<-|_]; [discriminate Hc | reflexivity].
  - destruct (Ascii.eqb_spec CR c) as [<-|_]; [discriminate Hc | reflexivity].
Qed.

Lemma py_in_elem_of (x : string) (l : list string) :
  py_in x l = true <-> x ∈ l.
Proof.
  unfold py_in. rewrite existsb_exists. split.
  - intros (y & Hy & Heq). apply String.eqb_eq in Heq. subst y.
    now apply list_elem_of_In.
  - intros Hx. exists x. split; [now apply list_elem_of_In | apply String.eqb_refl].
Qed.

(** ** Running the methods *)

Section Runs.
Context {C : Collaborators}.
Variable cfg : Configuration.

Lemma set_id_same (s : UserenaSignup) (k : Z) :
  id s = Some k -> set_id (Some k) s = s.
Proof. destruct s; simpl; intros ->; reflexivity. Qed.

#[local] Arguments save_accepted : simpl never.

(** [change_email] is: save the pending change, then send. *)
Lemma change_email_saved (new_email : string) (f : Frame UserenaSignup) :
  save_accepted (self f) (world f) = true ->
  change_email cfg new_email f = send_confirmation_email cfg (saved_frame new_email f).
Proof.
  intros Hok. destruct f as [s w]. cbn [self world] in Hok.
  unfold change_email, saved_frame, saved_row, row_key.
  unfold bind, set_self, modify, get_self, gets, in_world, generate_sha1,
    datetime_now, save, fresh_key.
  unfold gets. simpl.
  match goal with
  | |- context [save_accepted ?a ?b] =>
      change (save_accepted a b) with (save_accepted s w)
  end.
  rewrite Hok. unfold pending_change.
  cbn [id set_email_confirmation_key_created
         set_email_confirmation_key set_email_unconfirmed].
  destruct (id s) as [k|] eqn:Hid.
  - rewrite set_id_same by (cbn [id]; exact Hid). reflexivity.
  - reflexivity.
Qed.

(** When the table refuses the row, [change_email] ends at the save. *)
Lemma change_email_refused (new_email : string) (f : Frame UserenaSignup) :
  save_accepted (self f) (world f) = false ->
  change_email cfg new_email f = (Raise IntegrityError, refused_frame new_email f).
Proof.
  intros Hno. destruct f as [s w]. cbn [self world] in Hno.
  unfold change_email, refused_frame.
  unfold bind, set_self, modify, get_self, gets, in_world, generate_sha1,
    datetime_now, save, fresh_key.
  unfold gets. simpl.
  match goal with
  | |- context [save_accepted ?a ?b] =>
      change (save_accepted a b) with (save_accepted s w)
  end.
  rewrite Hno. reflexivity.
Qed.

(** The three outcomes of [send_confirmation_email]. *)
Lemma send_confirmation_email_run (f : Frame UserenaSignup) :
  let s := self f in
  let w := world f in
  let old := confirmation_mail_old cfg s in
  let new := confirmation_mail_new cfg s in
  send_confirmation_email cfg f =
    if transport_raises (length (mail_log w)) old then
      (Raise SMTPException,
       {| self := s; world := log_mail {| mail := old; delivered := false |} w |})
    else if transport_raises (S (length (mail_log w))) new then
      (Raise SMTPException,
       {| self := s;
          world := log_mail {| mail := new; delivered := false |}
                     (log_mail {| mail := old; delivered := true |} w) |})
    else
      (Ok tt,
       {| self := s;
          world := log_mail {| mail := new; delivered := true |}
                     (log_mail {| mail := old; delivered := true |} w) |}).
Proof.
  destruct f as [s w]; simpl.
  unfold send_confirmation_email, bind, get_self, gets, in_world, send_mail; simpl.
  fold (confirmation_mail_old cfg s). fold (confirmation_mail_new cfg s).
  destruct (transport_raises (length (mail_log w)) (confirmation_mail_old cfg s));
    simpl; [reflexivity|].
  rewrite length_app; simpl. rewrite Nat.add_1_r.
  destruct (transport_raises (S (length (mail_log w))) (confirmation_mail_new cfg s));
    reflexivity.
Qed.

Lemma send_activation_email_run (f : Frame UserenaSignup) :
  let m := activation_mail cfg (self f) in
  let raised := transport_raises (length (mail_log (world f))) m in
  send_activation_email cfg f =
    (if raised then Raise SMTPException else Ok tt,
     {| self := self f;
        world := log_mail {| mail := m; delivered := negb raised |} (world f) |}).
Proof.
  destruct f as [s w]; simpl.
  unfold send_activation_email, bind, get_self, gets, in_world, send_mail; simpl.
  fold (activation_mail cfg s).
  destruct (transport_raises (length (mail_log w)) (activation_mail cfg s));
    reflexivity.
Qed.

End Runs.

(** ** Activation-key expiry *)

Section Expiry.

(** A representable expiry date is within the days a [timedelta] holds. *)
Lemma representable_window (conf : UserenaSettings) (s : UserenaSignup) :
  expiry_representable conf s ->
  timedelta_days (USERENA_ACTIVATION_DAYS conf)
    = Ok (USERENA_ACTIVATION_DAYS conf * US_PER_DAY).
Proof.
  intros [Hjoined Hdate]. unfold in_datetime_range in *.
  apply andb_true_iff in Hjoined, Hdate.
  destruct Hjoined as [Hj1 Hj2], Hdate as [Hd1 Hd2].
  apply Z.leb_le in Hj1, Hj2, Hd1, Hd2.
  unfold datetime_min, datetime_max, MAXORDINAL, US_PER_DAY in *.
  unfold timedelta_days.
  replace ((-999999999 <=? USERENA_ACTIVATION_DAYS conf)
           && (USERENA_ACTIVATION_DAYS conf <=? 999999999))
    with true; [reflexivity|].
  symmetry; apply andb_true_intro; split; apply Z.leb_le; lia.
Qed.

(** When the expiry date is representable the method returns the policy's
    verdict and leaves the frame as it was. *)
Lemma activation_key_expired_run (cfg : Configuration) (f : Frame UserenaSignup) :
  expiry_representable (userena_settings cfg) (self f) ->
  activation_key_expired cfg f =
    (Ok (expired_by_policy (userena_settings cfg) (self f) (clock (world f))), f).
Proof.
  intros Hrep. pose proof (representable_window _ _ Hrep) as Hdays.
  destruct Hrep as [_ Hdate]. destruct f as [s w]; simpl in *.
  unfold activation_key_expired, bind, get_self, gets, lift; simpl.
  rewrite Hdays. unfold datetime_add. rewrite Hdate.
  unfold expired_by_policy.
  destruct (String.eqb (activation_key s) (USERENA_ACTIVATED (userena_settings cfg)));
    simpl; [reflexivity|].
  unfold in_world, datetime_now, gets, ret; simpl.
  rewrite Z.geb_leb.
  destruct (_ <=? clock w); reflexivity.
Qed.

(** When it is not, the method raises before it looks at the key. *)
Lemma activation_key_expired_raises (cfg : Configuration) (f : Frame UserenaSignup) :
  in_datetime_range
    (date_joined (user (self f))
     + USERENA_ACTIVATION_DAYS (userena_settings cfg) * US_PER_DAY) = false ->
  activation_key_expired cfg f = (Raise OverflowError, f).
Proof.
  intros Hdate. destruct f as [s w]; simpl in *.
  unfold activation_key_expired, bind, get_self, gets, lift; simpl.
  unfold timedelta_days.
  destruct ((-999999999 <=? USERENA_ACTIVATION_DAYS (userena_settings cfg))
            && (USERENA_ACTIVATION_DAYS (userena_settings cfg) <=? 999999999));
    [|reflexivity].
  unfold datetime_add. rewrite Hdate. reflexivity.
Qed.

(** C1 (as amended): whenever [date_joined] plus [USERENA_ACTIVATION_DAYS]
    days is a representable datetime (it stays within [datetime.min] and
    [datetime.max]), [activation_key_expired] returns, and returns
    [True] exactly when the activation key equals [USERENA_ACTIVATED] or
    the clock shows a time at or after the expiry date: [True] for the
    sentinel whatever the time, [True] once the window has elapsed whatever
    the key, [False] otherwise; the instance and the world are left as they
    were. *)
Theorem activation_key_expired_policy (cfg : Configuration)
    (f : Frame UserenaSignup) :
  let conf := userena_settings cfg in
  let s := self f in
  let now := clock (world f) in
  let expiration_date :=
    date_joined (user s) + USERENA_ACTIVATION_DAYS conf * US_PER_DAY in
  expiry_representable conf s ->
  exists b : bool,
    activation_key_expired cfg f = (Ok b, f) /\
    (b = true <->
       activation_key s = USERENA_ACTIVATED conf \/ expiration_date <= now) /\
    (activation_key s = USERENA_ACTIVATED conf -> b = true) /\
    (expiration_date <= now -> b = true) /\
    (activation_key s <> USERENA_ACTIVATED conf -> now < expiration_date ->
       b = false).
Proof.
  intros conf s now expiration_date Hrep.
  exists (expired_by_policy conf s now). split.
  - apply activation_key_expired_run; exact Hrep.
  - unfold expired_by_policy. fold expiration_date.
    assert (Hiff : String.eqb (activation_key s) (USERENA_ACTIVATED conf)
                   || (expiration_date <=? now) = true <->
                   activation_key s = USERENA_ACTIVATED conf \/ expiration_date <= now).
    { rewrite orb_true_iff, String.eqb_eq, Z.leb_le. reflexivity. }
    split; [exact Hiff|]. split; [|split].
    + intros Hk. apply Hiff. left; exact Hk.
    + intros Hle. apply Hiff. right; exact Hle.
    + intros Hk Hlt. apply not_true_is_false. intros Hb.
      apply Hiff in Hb. destruct Hb as [Hb|Hb]; [contradiction | lia].
Qed.

End Expiry.

(** A window of two days for an account joined on 2011-01-01: not expired
    on the next day, expired two days later; and the consumed key is
    expired at once. *)
Lemma activation_key_expired_policy_witness :
  let run := activation_key_expired (demo_cfg 2) in
  fst (run (alice_frame pending_key "" (midnight 734139))) = Ok false /\
  fst (run (alice_frame pending_key "" (midnight 734141))) = Ok true /\
  fst (run (alice_frame "ALREADY_ACTIVATED" "" (midnight 734138))) = Ok true.
Proof.
  assert (Hrep : forall key, expiry_representable (demo_settings 2 "identicon")
                               (alice_signup key "")).
  { intros key. split; reflexivity. }
  split; [|split].
  - destruct (activation_key_expired_policy (demo_cfg 2)
                (alice_frame pending_key "" (midnight 734139)) (Hrep _))
      as (b & Hrun & _ & _ & _ & Hfalse).
    rewrite Hrun. simpl. f_equal. apply Hfalse.
    + discriminate.
    + reflexivity.
  - destruct (activation_key_expired_policy (demo_cfg 2)
                (alice_frame pending_key "" (midnight 734141)) (Hrep _))
      as (b & Hrun & _ & _ & Htrue & _).
    rewrite Hrun. simpl. f_equal. apply Htrue. discriminate.
  - destruct (activation_key_expired_policy (demo_cfg 2)
                (alice_frame "ALREADY_ACTIVATED" "" (midnight 734138)) (Hrep _))
      as (b & Hrun & _ & Htrue & _ & _).
    rewrite Hrun. simpl. f_equal. apply Htrue. reflexivity.
Defined.

(** With a window of ten million days the expiry date of an account joined
    in 2011 lies beyond year 9999: the policy says "expired" for the
    consumed key, and the method raises [OverflowError] instead of
    returning [True]. *)
Lemma activation_key_expired_overflow :
  let f := alice_frame "ALREADY_ACTIVATED" "" (midnight 734139) in
  let out := activation_key_expired (demo_cfg 10000000) f in
  expired_by_policy (demo_settings 10000000 "identicon") (self f)
    (clock (world f)) = true /\
  out = (Raise OverflowError, f) /\
  fst out <> Ok true.
Proof.
  intros f out.
  assert (Hout : out = (Raise OverflowError, f)).
  { apply activation_key_expired_raises. reflexivity. }
  split; [reflexivity|]. split; [exact Hout|].
  rewrite Hout. discriminate.
Qed.

(** The settings of [userina/settings.py] play no part in the expiry. *)
Section Userina.

(** C7: [activation_key_expired] reads [USERENA_ACTIVATION_DAYS] and
    [USERENA_ACTIVATED] only: whatever two pairs of values the project's
    settings give to [USERINA_VERIFICATION_DAYS] and [USERINA_VERIFIED]
    (and those are the values the [userina] settings module then holds),
    with the rest of the configuration, the instance and the world the
    same, the method gives the same result and the same final state. *)
Theorem activation_key_expired_ignores_userina (cfg : Configuration)
    (days1 verified1 days2 verified2 : pyval) (f : Frame UserenaSignup) :
  let cfg1 := with_userina days1 verified1 cfg in
  let cfg2 := with_userina days2 verified2 cfg in
  userina.USERINA_VERIFICATION_DAYS (settings cfg1) = days1 /\
  userina.USERINA_VERIFIED (settings cfg1) = verified1 /\
  userina.USERINA_VERIFICATION_DAYS (settings cfg2) = days2 /\
  userina.USERINA_VERIFIED (settings cfg2) = verified2 /\
  activation_key_expired cfg1 f = activation_key_expired cfg2 f /\
  activation_key_expired cfg1 f = activation_key_expired cfg f.
Proof.
  intros cfg1 cfg2.
  unfold userina.USERINA_VERIFICATION_DAYS, userina.USERINA_VERIFIED, getattr.
  subst cfg1 cfg2; simpl.
  repeat (rewrite lookup_insert_eq || rewrite lookup_insert_ne by discriminate).
  repeat split; reflexivity.
Qed.

End Userina.

(** ** Profile visibility and the mugshot *)

Section Profile.
Context {C : Collaborators}.

(** C2: [can_view_profile] decides in this order.  An ['open'] profile is
    visible, and a ['registered'] one is visible to a [User] instance, in
    both cases without a permission lookup (the world is unchanged).
    Otherwise one lookup is made and the answer is [True] exactly when
    ['view_profile'] is among the permissions of (viewer, profile), [False]
    if not.  So a ['closed'] profile is hidden from an anonymous viewer
    without permissions and shown to a viewer that holds the permission. *)
Theorem can_view_profile_order (viewer : Viewer) (f : Frame UserenaBaseProfile) :
  let p := self f in
  let granted := py_in "view_profile" (get_perms viewer p) in
  (privacy p = "open" -> can_view_profile viewer f = (Ok true, f)) /\
  (privacy p = "registered" -> isinstance_User viewer = true ->
     can_view_profile viewer f = (Ok true, f)) /\
  (privacy p <> "open" ->
   privacy p <> "registered" \/ isinstance_User viewer = false ->
     can_view_profile viewer f =
       (Ok granted,
        {| self := p; world := log_perm_lookup (viewer, p) (world f) |})) /\
  (granted = true <-> "view_profile" ∈ get_perms viewer p) /\
  (privacy p = "closed" -> viewer = AnonymousUser -> get_perms viewer p = [] ->
     fst (can_view_profile viewer f) = Ok false) /\
  (privacy p = "closed" -> "view_profile" ∈ get_perms viewer p ->
     fst (can_view_profile viewer f) = Ok true).
Proof.
  intros p granted. destruct f as [q w]; simpl in p; subst p.
  assert (Hdelegate :
    privacy q <> "open" ->
    privacy q <> "registered" \/ isinstance_User viewer = false ->
    can_view_profile viewer {| self := q; world := w |} =
      (Ok granted, {| self := q; world := log_perm_lookup (viewer, q) w |})).
  { intros Hopen Hreg.
    unfold can_view_profile, bind, get_self, gets, in_world, lookup_perms; simpl.
    destruct (String.eqb_spec (privacy q) "open") as [Heq|_]; [contradiction|].
    assert (Hgate : String.eqb (privacy q) "registered" && isinstance_User viewer
                    = false).
    { destruct Hreg as [Hreg|Hreg].
      - apply String.eqb_neq in Hreg. now rewrite Hreg.
      - rewrite Hreg. apply andb_false_r. }
    rewrite Hgate. fold granted. destruct granted; reflexivity. }
  split; [|split; [|split; [|split; [|split]]]].
  - intros Hopen.
    unfold can_view_profile, bind, get_self, gets; simpl.
    rewrite Hopen. reflexivity.
  - intros Hreg Huser.
    unfold can_view_profile, bind, get_self, gets; simpl.
    rewrite Hreg, Huser. reflexivity.
  - exact Hdelegate.
  - apply py_in_elem_of.
  - intros Hclosed -> Hnone.
    rewrite Hdelegate.
    + simpl. subst granted. rewrite Hnone. reflexivity.
    + rewrite Hclosed; discriminate.
    + left. rewrite Hclosed; discriminate.
  - intros Hclosed Hgrant.
    rewrite Hdelegate.
    + simpl. f_equal. apply py_in_elem_of. exact Hgrant.
    + rewrite Hclosed; discriminate.
    + left. rewrite Hclosed; discriminate.
Qed.

(** C6: [get_mugshot_url] follows this chain: the URL of the stored
    mugshot when there is one; if not, the Gravatar URL for the user's
    email when [USERENA_MUGSHOT_GRAVATAR] is set; if not, the configured
    default unless it is one of ['404'], ['mm'], ['identicon'],
    ['monsterid'], ['wavatar']; and [None] when it is one of them.  The
    instance and the world are left as they were. *)
Theorem get_mugshot_url_chain (cfg : Configuration) (f : Frame UserenaBaseProfile) :
  let conf := userena_settings cfg in
  let p := self f in
  let default := USERENA_MUGSHOT_DEFAULT conf in
  (mugshot p <> "" ->
     get_mugshot_url cfg f = (Ok (Some (mugshot_url (mugshot p))), f)) /\
  (mugshot p = "" -> USERENA_MUGSHOT_GRAVATAR conf = true ->
     get_mugshot_url cfg f =
       (Ok (Some (get_gravatar (email (profile_user p))
                    (USERENA_MUGSHOT_SIZE conf) default)), f)) /\
  (mugshot p = "" -> USERENA_MUGSHOT_GRAVATAR conf = false ->
   default ∉ ["404"; "mm"; "identicon"; "monsterid"; "wavatar"] ->
     get_mugshot_url cfg f = (Ok (Some default), f)) /\
  (mugshot p = "" -> USERENA_MUGSHOT_GRAVATAR conf = false ->
   default ∈ ["404"; "mm"; "identicon"; "monsterid"; "wavatar"] ->
     get_mugshot_url cfg f = (Ok None, f)).
Proof.
  intros conf p default. destruct f as [q w]; simpl in p; subst p.
  unfold get_mugshot_url, bind, get_self, gets. cbv beta iota. cbn [self].
  fold conf. fold default.
  split; [|split; [|split]].
  - intros Hshot. apply String.eqb_neq in Hshot. rewrite Hshot. reflexivity.
  - intros -> ->. reflexivity.
  - intros -> -> Hout.
    destruct (py_in default gravatar_builtins) eqn:Hin; [|reflexivity].
    apply py_in_elem_of in Hin. contradiction.
  - intros -> -> Hin.
    apply py_in_elem_of in Hin. unfold gravatar_builtins. rewrite Hin.
    reflexivity.
Qed.

End Profile.

(** A closed profile: hidden from an anonymous viewer without permissions,
    shown to a viewer holding ['view_profile']; an open profile is shown
    to the anonymous viewer and no lookup is recorded. *)
Lemma can_view_profile_order_witness :
  let bob := {| username := "bob"; email := "bob@x.com";
                date_joined := midnight 734200 |} in
  let closed := {| self := alice_profile "closed"; world := demo_world 0 |} in
  let open := {| self := alice_profile "open"; world := demo_world 0 |} in
  fst (can_view_profile (C := demo_collaborators transport_up no_perms)
         AnonymousUser closed) = Ok false /\
  fst (can_view_profile
         (C := demo_collaborators transport_up (fun _ _ => ["view_profile"]))
         (UserInstance bob) closed) = Ok true /\
  can_view_profile (C := demo_collaborators transport_up no_perms)
    AnonymousUser open = (Ok true, open).
Proof.
  intros bob closed open. split; [|split].
  - destruct (can_view_profile_order
                (C := demo_collaborators transport_up no_perms)
                AnonymousUser closed) as (_ & _ & _ & _ & Hanonymous & _).
    apply Hanonymous; reflexivity.
  - destruct (can_view_profile_order
                (C := demo_collaborators transport_up (fun _ _ => ["view_profile"]))
                (UserInstance bob) closed) as (_ & _ & _ & _ & _ & Hgranted).
    apply Hgranted; [reflexivity | constructor].
  - destruct (can_view_profile_order
                (C := demo_collaborators transport_up no_perms)
                AnonymousUser open) as (Hopen & _).
    apply Hopen; reflexivity.
Defined.

(** No stored image, Gravatar off and ['identicon'] as the default: the
    result is [None]; a default of the project's own is returned. *)
Lemma get_mugshot_url_chain_witness :
  let f := {| self := alice_profile "open"; world := demo_world 0 |} in
  get_mugshot_url (C := demo_collaborators transport_up no_perms)
    (demo_cfg 2) f = (Ok None, f) /\
  get_mugshot_url (C := demo_collaborators transport_up no_perms)
    {| settings := ∅; userena_settings := demo_settings 2 "/static/nobody.png" |} f
  = (Ok (Some "/static/nobody.png"), f).
Proof.
  intros f. split.
  - destruct (get_mugshot_url_chain
                (C := demo_collaborators transport_up no_perms) (demo_cfg 2) f)
      as (_ & _ & _ & Hbuiltin).
    apply Hbuiltin; [reflexivity | reflexivity |].
    simpl. do 2 constructor 2. constructor 1.
  - destruct (get_mugshot_url_chain
                (C := demo_collaborators transport_up no_perms)
                {| settings := ∅;
                   userena_settings := demo_settings 2 "/static/nobody.png" |} f)
      as (_ & _ & Hown & _).
    apply Hown; [reflexivity | reflexivity |].
    simpl. intros Hin. apply py_in_elem_of in Hin. discriminate Hin.
Defined.

(** ** The notification mails *)

Section Notifications.
Context {C : Collaborators}.
Variable cfg : Configuration.

Lemma sent_during_log (w : World) (c : MailCall) :
  sent_during w (log_mail c w) = [c].
Proof. unfold sent_during; simpl. apply drop_app_length. Qed.

Lemma sent_during_log2 (w : World) (c1 c2 : MailCall) :
  sent_during w (log_mail c2 (log_mail c1 w)) = [c1; c2].
Proof.
  unfold sent_during; simpl. rewrite <- app_assoc. apply drop_app_length.
Qed.

(** When the old-address send returns, the new-address send is made. *)
Lemma send_confirmation_email_old_returns (f : Frame UserenaSignup) :
  let old := confirmation_mail_old cfg (self f) in
  let new := confirmation_mail_new cfg (self f) in
  transport_raises (length (mail_log (world f))) old = false ->
  exists c,
    mail c = new /\
    mail_log (world (snd (send_confirmation_email cfg f))) =
      (mail_log (world f) ++ [{| mail := old; delivered := true |}; c])%list.
Proof.
  intros old new Hup. rewrite send_confirmation_email_run. fold old. fold new.
  rewrite Hup.
  destruct (transport_raises (S (length (mail_log (world f)))) new); simpl;
    eexists; (split; [|rewrite <- app_assoc; reflexivity]); reflexivity.
Qed.

(** C3 (as amended): if the send to the old (current) address raises, the
    exception ends [send_confirmation_email] there: the method raises, the
    call to the old address is the only one made, and no send to the new
    address is attempted. *)
Theorem send_confirmation_email_old_raises (f : Frame UserenaSignup) :
  let old := confirmation_mail_old cfg (self f) in
  transport_raises (length (mail_log (world f))) old = true ->
  send_confirmation_email cfg f =
    (Raise SMTPException,
     {| self := self f;
        world := log_mail {| mail := old; delivered := false |} (world f) |}) /\
  sent_during (world f) (world (snd (send_confirmation_email cfg f))) =
    [{| mail := old; delivered := false |}].
Proof.
  intros old Hdown. rewrite send_confirmation_email_run. fold old.
  rewrite Hdown. split; [reflexivity|]. simpl. apply sent_during_log.
Qed.

(** C8: [send_activation_email] makes exactly one [send_mail] call, to the
    email of the account's user; subject and message are rendered from a
    context that carries the activation key, [USERENA_ACTIVATION_DAYS],
    the protocol (['https'] when [USERENA_USE_HTTPS] is set, ['http'] if
    not), the user and the current site; the instance, the stored rows and
    the rest of the world are as before the call. *)
Theorem send_activation_email_frame (f : Frame UserenaSignup) :
  let conf := userena_settings cfg in
  let s := self f in
  let context := activation_context cfg s in
  let out := send_activation_email cfg f in
  exists c : MailCall,
    sent_during (world f) (world (snd out)) = [c] /\
    mail_log (world (snd out)) = (mail_log (world f) ++ [c])%list /\
    recipient_list (mail c) = [email (user s)] /\
    subject (mail c) =
      single_line
        (render_to_string "userena/emails/activation_email_subject.txt" context) /\
    message (mail c) =
      render_to_string "userena/emails/activation_email_message.txt" context /\
    from_email (mail c) = DEFAULT_FROM_EMAIL (settings cfg) /\
    context !! "activation_key" = Some (CtxStr (activation_key s)) /\
    context !! "activation_days" = Some (CtxInt (USERENA_ACTIVATION_DAYS conf)) /\
    context !! "protocol" =
      Some (CtxStr (if USERENA_USE_HTTPS conf then "https" else "http")) /\
    context !! "user" = Some (CtxUser (user s)) /\
    context !! "site" = Some (CtxSite get_current) /\
    (delivered c = true <-> fst out = Ok tt) /\
    self (snd out) = s /\
    db (world (snd out)) = db (world f) /\
    next_id (world (snd out)) = next_id (world f) /\
    clock (world (snd out)) = clock (world f) /\
    random_draws (world (snd out)) = random_draws (world f) /\
    perm_lookups (world (snd out)) = perm_lookups (world f).
Proof.
  intros conf s context out. subst out.
  rewrite send_activation_email_run. cbv zeta. fold s.
  set (raised := transport_raises _ _).
  exists {| mail := activation_mail cfg s; delivered := negb raised |}.
  cbn [snd fst self world mail delivered].
  split; [apply sent_during_log|].
  split; [reflexivity|].
  do 4 (split; [reflexivity|]).
  unfold context, activation_context.
  repeat (split;
          [repeat (rewrite lookup_insert_eq
                   || rewrite lookup_insert_ne by discriminate);
           reflexivity|]).
  split; [destruct raised; simpl; split; congruence|].
  repeat split; reflexivity.
Qed.

(** C9: every subject handed to [send_mail] is a single line.
    [send_confirmation_email] always calls [send_mail] for the old
    address, with the rendered old-address subject with its lines joined
    as the subject, and, when that call returns, calls it for the new
    address with the rendered new-address subject with its lines joined;
    [send_activation_email] makes its one call with the rendered
    activation subject with its lines joined.  Joining the lines of a
    text gives the text with every line boundary dropped, so none of
    these subjects has an LF, a CR or any other line-boundary character
    in it. *)
Theorem subjects_are_single_lines (f : Frame UserenaSignup) :
  let s := self f in
  let one_line (c : MailCall) :=
    no_linebreak (subject (mail c)) = true /\
    occurs LF (subject (mail c)) = false /\
    occurs CR (subject (mail c)) = false in
  let joined (template_name : string) (context : gmap string ctxval) :=
    join_empty (splitlines (render_to_string template_name context)) in
  let sent_confirmation :=
    sent_during (world f) (world (snd (send_confirmation_email cfg f))) in
  let sent_activation :=
    sent_during (world f) (world (snd (send_activation_email cfg f))) in
  (exists c1 rest,
     sent_confirmation = c1 :: rest /\
     subject (mail c1) =
       joined "userena/emails/confirmation_email_subject_old.txt"
         (confirmation_context cfg s) /\
     recipient_list (mail c1) = [email (user s)] /\
     (delivered c1 = false /\ rest = [] \/
      delivered c1 = true /\
      exists c2,
        rest = [c2] /\
        subject (mail c2) =
          joined "userena/emails/confirmation_email_subject_new.txt"
            (confirmation_context cfg s) /\
        recipient_list (mail c2) = [email_unconfirmed s])) /\
  (exists c,
     sent_activation = [c] /\
     subject (mail c) =
       joined "userena/emails/activation_email_subject.txt"
         (activation_context cfg s) /\
     recipient_list (mail c) = [email (user s)]) /\
  Forall one_line sent_confirmation /\
  Forall one_line sent_activation /\
  (forall text,
     join_empty (splitlines text) = drop_linebreaks text /\
     no_linebreak (join_empty (splitlines text)) = true /\
     occurs LF (join_empty (splitlines text)) = false /\
     occurs CR (join_empty (splitlines text)) = false) /\
  subject (confirmation_mail_old cfg s) =
    drop_linebreaks
      (render_to_string "userena/emails/confirmation_email_subject_old.txt"
         (confirmation_context cfg s)) /\
  subject (confirmation_mail_new cfg s) =
    drop_linebreaks
      (render_to_string "userena/emails/confirmation_email_subject_new.txt"
         (confirmation_context cfg s)) /\
  subject (activation_mail cfg s) =
    drop_linebreaks
      (render_to_string "userena/emails/activation_email_subject.txt"
         (activation_context cfg s)) /\
  (forall text, single_line text = join_empty (splitlines text)).
Proof.
  intros s one_line joined sent_confirmation sent_activation.
  assert (Hone : forall m d, no_linebreak (subject m) = true ->
                             one_line {| mail := m; delivered := d |}).
  { intros m d Hclean. split; [exact Hclean|].
    apply no_linebreak_no_newline. exact Hclean. }
  assert (Hconf :
    sent_confirmation =
      if transport_raises (length (mail_log (world f)))
           (confirmation_mail_old cfg s)
      then [{| mail := confirmation_mail_old cfg s; delivered := false |}]
      else [{| mail := confirmation_mail_old cfg s; delivered := true |};
            {| mail := confirmation_mail_new cfg s;
               delivered :=
                 negb (transport_raises (S (length (mail_log (world f))))
                         (confirmation_mail_new cfg s)) |}]).
  { subst sent_confirmation. rewrite send_confirmation_email_run. cbv zeta.
    fold s.
    destruct (transport_raises (length (mail_log (world f))) _);
      [|destruct (transport_raises (S (length (mail_log (world f)))) _)];
      cbn [snd world negb];
      rewrite ?sent_during_log, ?sent_during_log2; reflexivity. }
  assert (Hact :
    sent_activation =
      [{| mail := activation_mail cfg s;
          delivered :=
            negb (transport_raises (length (mail_log (world f)))
                    (activation_mail cfg s)) |}]).
  { subst sent_activation. rewrite send_activation_email_run. cbv zeta.
    cbn [snd world]. apply sent_during_log. }
  rewrite Hconf, Hact.
  split; [|split; [|split; [|split; [|split]]]].
  - destruct (transport_raises (length (mail_log (world f))) _).
    + do 2 eexists. split; [reflexivity|]. split; [reflexivity|].
      split; [reflexivity|]. left. split; reflexivity.
    + do 2 eexists. split; [reflexivity|]. split; [reflexivity|].
      split; [reflexivity|]. right. split; [reflexivity|].
      eexists. repeat split; reflexivity.
  - eexists. repeat split; reflexivity.
  - destruct (transport_raises (length (mail_log (world f))) _);
      repeat (apply List.Forall_cons || apply List.Forall_nil);
      apply Hone; apply single_line_clean.
  - repeat (apply List.Forall_cons || apply List.Forall_nil).
    apply Hone; apply single_line_clean.
  - intros text. fold (splitlines text). fold (single_line text).
    split; [apply single_line_drop|]. split; [apply single_line_clean|].
    apply no_linebreak_no_newline, single_line_clean.
  - repeat split; try apply single_line_drop.
Qed.

End Notifications.

(** The old-address send raises for alice's pending change to
    [new@x.com]: the method raises after that one call. *)
Lemma send_confirmation_email_old_raises_witness :
  let C := demo_collaborators (transport_down_at 0) no_perms in
  let f := alice_frame pending_key "new@x.com" (midnight 734139) in
  let out := send_confirmation_email (C := C) (demo_cfg 2) f in
  fst out = Raise SMTPException /\
  sent_during (world f) (world (snd out)) =
    [{| mail := confirmation_mail_old (C := C) (demo_cfg 2) (self f);
        delivered := false |}].
Proof.
  intros C f out.
  destruct (send_confirmation_email_old_raises (C := C) (demo_cfg 2) f)
    as [Hrun Hsent].
  - reflexivity.
  - split; [|exact Hsent]. subst out. rewrite Hrun. reflexivity.
Defined.

(** The same run against the claim that the new address is still tried:
    the old-address send raises, and no call of the log went to
    [new@x.com]. *)
Lemma new_address_not_attempted_after_old_raises :
  let C := demo_collaborators (transport_down_at 0) no_perms in
  let f := alice_frame pending_key "new@x.com" (midnight 734139) in
  let out := send_confirmation_email (C := C) (demo_cfg 2) f in
  transport_raises (length (mail_log (world f)))
    (confirmation_mail_old (C := C) (demo_cfg 2) (self f)) = true /\
  email_unconfirmed (self f) = "new@x.com" /\
  fst out = Raise SMTPException /\
  ~ attempted_to ["new@x.com"] (mail_log (world (snd out))).
Proof.
  intros C f out. split; [reflexivity|]. split; [reflexivity|].
  assert (Hrun : out =
            (Raise SMTPException,
             {| self := self f;
                world := log_mail
                           {| mail := confirmation_mail_old (C := C) (demo_cfg 2) (self f);
                              delivered := false |} (world f) |})).
  { subst out. rewrite send_confirmation_email_run. reflexivity. }
  rewrite Hrun. split; [reflexivity|].
  intros (c & Hin & Hto). simpl in Hin.
  apply list_elem_of_singleton in Hin. subst c.
  simpl in Hto. discriminate Hto.
Qed.

(** ** Changing the email address *)

Section ChangeEmail.
Context {C : Collaborators}.
Variable cfg : Configuration.

(** No other row belongs to the user: the check of [save], row by row. *)
Lemma user_has_other_row_false (own : option Z) (u : User)
    (d : gmap Z UserenaSignup) :
  user_has_other_row own u d = false <->
  forall k r, d !! k = Some r -> own <> Some k ->
              username (user r) <> username u.
Proof.
  unfold user_has_other_row. split.
  - intros Hnone k r Hrow Hown Hsame.
    assert (Hex : existsb
              (fun kr : Z * UserenaSignup =>
                 negb (bool_decide (own = Some (fst kr)))
                 && String.eqb (username (user (snd kr))) (username u))
              (map_to_list d) = true).
    { apply existsb_exists. exists (k, r). split.
      - apply list_elem_of_In, elem_of_map_to_list. exact Hrow.
      - cbn [fst snd]. rewrite bool_decide_eq_false_2 by exact Hown.
        rewrite Hsame, String.eqb_refl. reflexivity. }
    rewrite Hnone in Hex. discriminate Hex.
  - intros Hall. apply not_true_is_false. intros Hex.
    apply existsb_exists in Hex. destruct Hex as ([k r] & Hin & Hhit).
    apply list_elem_of_In, elem_of_map_to_list in Hin. cbn [fst snd] in Hhit.
    apply andb_true_iff in Hhit. destruct Hhit as [Hown Hsame].
    apply negb_true_iff, bool_decide_eq_false in Hown.
    apply String.eqb_eq in Hsame. exact (Hall k r Hin Hown Hsame).
Qed.

(** What one accepted [change_email] call leaves behind, whatever the
    sends do. *)
Lemma change_email_state (new_email : string) (f : Frame UserenaSignup) :
  save_accepted (self f) (world f) = true ->
  let out := change_email cfg new_email f in
  self (snd out) = saved_row new_email f /\
  db (world (snd out)) =
    <[row_key (self f) (world f) := saved_row new_email f]> (db (world f)) /\
  random_draws (world (snd out)) = S (random_draws (world f)) /\
  clock (world (snd out)) = clock (world f) /\
  next_id (world (snd out)) =
    match id (self f) with
    | Some _ => next_id (world f)
    | None => next_id (world f) + 1
    end.
Proof.
  intros Hok. cbv zeta.
  rewrite (change_email_saved cfg _ _ Hok), send_confirmation_email_run.
  cbv zeta.
  destruct (transport_raises _ _); [|destruct (transport_raises _ _)];
    repeat split; reflexivity.
Qed.

Lemma saved_row_fields (new_email : string) (f : Frame UserenaSignup) :
  let row := saved_row new_email f in
  id row = Some (row_key (self f) (world f)) /\
  email_unconfirmed row = new_email /\
  email_confirmation_key row = fresh_key (self f) (world f) /\
  email_confirmation_key_created row = Some (clock (world f)) /\
  user row = user (self f) /\
  last_active row = last_active (self f) /\
  activation_key row = activation_key (self f) /\
  activation_notification_send row = activation_notification_send (self f).
Proof. repeat split; reflexivity. Qed.

(** The send leaves the stored rows alone. *)
Lemma send_confirmation_email_db (f : Frame UserenaSignup) :
  db (world (snd (send_confirmation_email cfg f))) = db (world f) /\
  self (snd (send_confirmation_email cfg f)) = self f.
Proof.
  rewrite send_confirmation_email_run. cbv zeta.
  destruct (transport_raises _ _); [|destruct (transport_raises _ _)];
    split; reflexivity.
Qed.

(** After an accepted call no row but the account's belongs to the user,
    and the table accepts the instance again. *)
Lemma change_email_accepted_again (new_email : string)
    (f : Frame UserenaSignup) :
  save_accepted (self f) (world f) = true ->
  let out := change_email cfg new_email f in
  let k := row_key (self f) (world f) in
  (forall k' r, db (world (snd out)) !! k' = Some r -> k' <> k ->
                username (user r) <> username (user (self f))) /\
  (forall t, save_accepted (self (snd out)) (set_clock t (world (snd out)))
             = true).
Proof.
  intros Hok out k.
  destruct (change_email_state new_email f Hok) as (Hself & Hdb & _).
  fold out in Hself, Hdb. fold k in Hdb.
  assert (Hothers : forall k' r, db (world (snd out)) !! k' = Some r ->
                      k' <> k ->
                      username (user r) <> username (user (self f))).
  { intros k' r Hrow Hne. rewrite Hdb, lookup_insert_ne in Hrow by congruence.
    unfold save_accepted in Hok. apply andb_true_iff in Hok.
    destruct Hok as [Huser _]. apply negb_true_iff in Huser.
    apply (proj1 (user_has_other_row_false _ _ _) Huser k' r Hrow).
    subst k. unfold row_key in Hne.
    destruct (id (self f)) as [k0|]; [congruence | discriminate]. }
  split; [exact Hothers|].
  intros t. unfold save_accepted.
  change (db (set_clock t (world (snd out)))) with (db (world (snd out))).
  rewrite Hself.
  change (id (saved_row new_email f)) with (Some k).
  change (user (saved_row new_email f)) with (user (self f)).
  rewrite andb_true_r. apply negb_true_iff.
  apply user_has_other_row_false. intros k' r Hrow Hown.
  apply (Hothers k' r Hrow). congruence.
Qed.

Lemma change_email_calls_app (calls1 calls2 : list (datetime * string))
    (f : Frame UserenaSignup) :
  change_email_calls cfg (calls1 ++ calls2) f =
    change_email_calls cfg calls2 (change_email_calls cfg calls1 f).
Proof.
  revert f. induction calls1 as [|[t e] rest IH]; intros f; simpl.
  - reflexivity.
  - apply IH.
Qed.

(** What a run of accepted calls keeps: the user, the fields
    [change_email] does not assign, the key of the row, every other row,
    and the table's consent; and it draws one salt per call. *)
Lemma change_email_calls_keep (calls : list (datetime * string))
    (f : Frame UserenaSignup) :
  save_accepted (self f) (world f) = true ->
  let after := change_email_calls cfg calls f in
  let k := row_key (self f) (world f) in
  user (self after) = user (self f) /\
  last_active (self after) = last_active (self f) /\
  activation_key (self after) = activation_key (self f) /\
  activation_notification_send (self after) =
    activation_notification_send (self f) /\
  row_key (self after) (world after) = k /\
  random_draws (world after) = (random_draws (world f) + length calls)%nat /\
  (forall k', k' <> k -> db (world after) !! k' = db (world f) !! k') /\
  (forall t, save_accepted (self after) (set_clock t (world after)) = true).
Proof.
  revert f. induction calls as [|[t e] rest IH]; intros f Hok.
  - simpl. rewrite Nat.add_0_r. repeat split; try reflexivity.
    intros t. exact Hok.
  - cbn [change_email_calls].
    set (f0 := {| self := self f; world := set_clock t (world f) |}).
    set (f1 := snd (change_email cfg e f0)).
    assert (Hok0 : save_accepted (self f0) (world f0) = true) by exact Hok.
    destruct (change_email_state e f0 Hok0) as (Hself & Hdb & Hdraws & _ & _).
    fold f1 in Hself, Hdb, Hdraws.
    destruct (change_email_accepted_again e f0 Hok0) as (_ & Hagain).
    fold f1 in Hagain.
    destruct (saved_row_fields e f0)
      as (Hid & _ & _ & _ & Huser & Hlast & Hkey & Hsend).
    rewrite <- Hself in Hid, Huser, Hlast, Hkey, Hsend.
    assert (Hk : row_key (self f1) (world f1) = row_key (self f) (world f)).
    { unfold row_key at 1. rewrite Hid. reflexivity. }
    assert (Hok1 : save_accepted (self f1) (world f1) = true).
    { specialize (Hagain (clock (world f1))).
      destruct (world f1); exact Hagain. }
    specialize (IH f1 Hok1). cbv zeta in IH.
    destruct IH as (IHu & IHl & IHk & IHs & IHr & IHd & IHo & IHa).
    cbv zeta. rewrite IHu, IHl, IHk, IHs, IHr, IHd, Hk.
    repeat split; try assumption.
    + rewrite Hdraws. simpl. lia.
    + intros k' Hne. rewrite IHo by (rewrite Hk; exact Hne).
      rewrite Hdb. rewrite lookup_insert_ne; [reflexivity|].
      intros Heq. apply Hne. rewrite <- Heq. reflexivity.
Qed.

(** A run of calls that the table refuses stores nothing and sends
    nothing. *)
Lemma change_email_calls_refused (calls : list (datetime * string))
    (f : Frame UserenaSignup) :
  save_accepted (self f) (world f) = false ->
  let after := change_email_calls cfg calls f in
  db (world after) = db (world f) /\
  mail_log (world after) = mail_log (world f) /\
  id (self after) = id (self f).
Proof.
  revert f. induction calls as [|[t e] rest IH]; intros f Hno.
  - repeat split; reflexivity.
  - cbn [change_email_calls].
    set (f0 := {| self := self f; world := set_clock t (world f) |}).
    assert (Hno0 : save_accepted (self f0) (world f0) = false) by exact Hno.
    rewrite (change_email_refused cfg e f0 Hno0). cbn [snd].
    destruct (IH (refused_frame e f0)) as (Hdb & Hlog & Hid); [exact Hno|].
    cbv zeta. rewrite Hdb, Hlog, Hid. repeat split; reflexivity.
Qed.

(** C4 (as amended): for an account that the table accepts (no other
    signup row belongs to its user, and for an instance that was never
    saved the next key is free), after any sequence of [change_email]
    calls one row belongs to the account's user, and it holds one pending
    change, that of the last call: [email_unconfirmed] is the last address
    given, [email_confirmation_key] the key generated in the last call and
    [email_confirmation_key_created] the time of the last call.  Earlier
    values are overwritten, the other fields of the row and the other
    rows are untouched. *)
Theorem change_email_last_write_wins (earlier : list (datetime * string))
    (t : datetime) (new_email : string) (f : Frame UserenaSignup) :
  let k := row_key (self f) (world f) in
  let after := change_email_calls cfg (earlier ++ [(t, new_email)]) f in
  let row := self after in
  save_accepted (self f) (world f) = true ->
  db (world after) !! k = Some row /\
  id row = Some k /\
  email_unconfirmed row = new_email /\
  email_confirmation_key row =
    sha_hexdigest
      (random_salt (random_draws (world f) + length earlier)%nat
       ++ username (user (self f))) /\
  email_confirmation_key_created row = Some t /\
  user row = user (self f) /\
  last_active row = last_active (self f) /\
  activation_key row = activation_key (self f) /\
  activation_notification_send row = activation_notification_send (self f) /\
  (forall k', k' <> k -> db (world after) !! k' = db (world f) !! k') /\
  (forall k' row', db (world after) !! k' = Some row' ->
     username (user row') = username (user (self f)) -> k' = k).
Proof.
  intros k after row Hok. subst row after.
  rewrite change_email_calls_app. cbn [change_email_calls].
  set (f' := change_email_calls cfg earlier f).
  set (f0 := {| self := self f'; world := set_clock t (world f') |}).
  destruct (change_email_calls_keep earlier f Hok)
    as (Hu & Hl & Hk & Hs & Hr & Hd & Ho & Ha).
  fold f' in Hu, Hl, Hk, Hs, Hr, Hd, Ho, Ha. fold k in Hr, Ho.
  assert (Hok0 : save_accepted (self f0) (world f0) = true) by apply Ha.
  destruct (change_email_state new_email f0 Hok0) as (Hself & Hdb & _).
  destruct (change_email_accepted_again new_email f0 Hok0) as (Hothers & _).
  destruct (saved_row_fields new_email f0)
    as (Hid & Hmail & Hfresh & Hcreated & Huser & Hlast & Hkey & Hsend).
  assert (Hk0 : row_key (self f0) (world f0) = k) by exact Hr.
  rewrite Hk0 in Hid, Hdb, Hothers.
  rewrite Hself, Hdb.
  split; [apply lookup_insert_eq|].
  split; [exact Hid|].
  split; [exact Hmail|].
  split.
  { rewrite Hfresh. unfold fresh_key. cbn [self world f0].
    rewrite Hu. unfold set_clock; cbn [random_draws]. rewrite Hd. reflexivity. }
  split; [exact Hcreated|].
  split; [rewrite Huser; exact Hu|].
  split; [rewrite Hlast; exact Hl|].
  split; [rewrite Hkey; exact Hk|].
  split; [rewrite Hsend; exact Hs|].
  split.
  - intros k' Hne. rewrite lookup_insert_ne by congruence.
    cbn [world f0 set_clock db]. apply Ho. exact Hne.
  - intros k' row' Hrow Hsame.
    destruct (decide (k' = k)) as [Heq|Hne]; [exact Heq|]. exfalso.
    rewrite <- Hdb in Hrow.
    apply (Hothers k' row' Hrow Hne). cbn [self f0]. rewrite Hu. exact Hsame.
Qed.

End ChangeEmail.

Section Durability.
Context {C : Collaborators}.
Variable cfg : Configuration.

Lemma sent_during_nothing (w : World) : sent_during w (count_draw w) = [].
Proof. unfold sent_during. cbn [mail_log count_draw]. apply drop_all. Qed.

(** C5 (as amended): when the table accepts the save, [change_email]
    saves before it sends.  When the save is done the row under the
    account's key holds the given address, the key (the digest of a
    freshly drawn salt followed by the username) and the clock's time,
    and no mail call has been made yet; the two sends come after and do
    not touch the stored rows.  So the change is stored whatever the
    sends do, and when a send raises the stored row is that saved row:
    nothing is rolled back.  When the table refuses the save, the call
    ends there with [IntegrityError]: nothing is stored and no send is
    made. *)
Theorem change_email_saves_before_sending (new_email : string)
    (f : Frame UserenaSignup) :
  let k := row_key (self f) (world f) in
  let saved := saved_frame new_email f in
  let row := saved_row new_email f in
  let out := change_email cfg new_email f in
  (save_accepted (self f) (world f) = true ->
   out = send_confirmation_email cfg saved /\
   mail_log (world saved) = mail_log (world f) /\
   db (world saved) !! k = Some row /\
   email_unconfirmed row = new_email /\
   email_confirmation_key row =
     sha_hexdigest
       (random_salt (random_draws (world f)) ++ username (user (self f))) /\
   email_confirmation_key_created row = Some (clock (world f)) /\
   db (world (snd out)) = db (world saved) /\
   db (world (snd out)) !! k = Some row /\
   (forall e, fst out = Raise e -> db (world (snd out)) !! k = Some row) /\
   (fst out = Ok tt \/ fst out = Raise SMTPException)) /\
  (save_accepted (self f) (world f) = false ->
   fst out = Raise IntegrityError /\
   db (world (snd out)) = db (world f) /\
   mail_log (world (snd out)) = mail_log (world f) /\
   sent_during (world f) (world (snd out)) = []).
Proof.
  intros k saved row out. split.
  - intros Hok.
    assert (Hout : out = send_confirmation_email cfg saved)
      by (apply change_email_saved; exact Hok).
    assert (Hsaved : db (world saved) !! k = Some row).
    { unfold saved, saved_frame. cbn [world set_db db]. apply lookup_insert_eq. }
    assert (Hdb : db (world (snd out)) = db (world saved)).
    { rewrite Hout. apply send_confirmation_email_db. }
    split; [exact Hout|].
    split; [reflexivity|].
    split; [exact Hsaved|].
    do 3 (split; [reflexivity|]).
    split; [exact Hdb|].
    split; [rewrite Hdb; exact Hsaved|].
    split; [intros _ _; rewrite Hdb; exact Hsaved|].
    rewrite Hout, send_confirmation_email_run. cbv zeta.
    destruct (transport_raises _ _); [|destruct (transport_raises _ _)]; auto.
  - intros Hno. subst out. rewrite (change_email_refused cfg _ _ Hno).
    cbn [fst snd refused_frame world].
    repeat split; try reflexivity. apply sent_during_nothing.
Qed.

(** C10 (as amended): [change_email] takes any string without checking
    it.  When the table accepts the save, the string is stored as it is,
    with a key of 40 characters (so not empty) and the time stamp; for
    the empty string the stored row has a confirmation key and an empty
    [email_unconfirmed].  When moreover the send to the old address
    returns, the send to the new address is made with the given string,
    the empty string included, as the one recipient; when that first send
    raises, the old-address call is the only one made. *)
Theorem change_email_any_string (new_email : string) (f : Frame UserenaSignup) :
  let k := row_key (self f) (world f) in
  let out := change_email cfg new_email f in
  let old := confirmation_mail_old cfg (saved_row new_email f) in
  save_accepted (self f) (world f) = true ->
  (exists row,
     db (world (snd out)) !! k = Some row /\
     email_unconfirmed row = new_email /\
     String.length (email_confirmation_key row) = 40%nat /\
     email_confirmation_key row <> "" /\
     email_confirmation_key_created row = Some (clock (world f))) /\
  (transport_raises (length (mail_log (world f))) old = false ->
   exists c,
     sent_during (world f) (world (snd out)) =
       [{| mail := old; delivered := true |}; c] /\
     recipient_list (mail c) = [new_email] /\
     (new_email = "" -> recipient_list (mail c) = [""])) /\
  (transport_raises (length (mail_log (world f))) old = true ->
   sent_during (world f) (world (snd out)) =
     [{| mail := old; delivered := false |}]).
Proof.
  intros k out old Hok.
  assert (Hlog : mail_log (world (saved_frame new_email f)) = mail_log (world f))
    by reflexivity.
  split; [|split].
  - exists (saved_row new_email f).
    destruct (change_email_state cfg new_email f Hok) as (_ & Hdb & _).
    fold out in Hdb. rewrite Hdb.
    split; [apply lookup_insert_eq|].
    split; [reflexivity|].
    assert (Hlen : String.length (email_confirmation_key (saved_row new_email f))
                   = 40%nat) by apply sha_hexdigest_length.
    split; [exact Hlen|].
    split; [|reflexivity].
    intros Hempty. rewrite Hempty in Hlen. discriminate Hlen.
  - intros Hup. subst out.
    rewrite (change_email_saved cfg _ _ Hok), send_confirmation_email_run.
    cbv zeta.
    change (self (saved_frame new_email f)) with (saved_row new_email f).
    fold old. rewrite Hlog, Hup.
    assert (Hsent : forall c,
              sent_during (world f)
                (log_mail c
                   (log_mail {| mail := old; delivered := true |}
                      (world (saved_frame new_email f))))
              = [{| mail := old; delivered := true |}; c]).
    { intros c. unfold sent_during. cbn [mail_log log_mail]. rewrite Hlog.
      rewrite <- app_assoc. apply drop_app_length. }
    destruct (transport_raises (S (length (mail_log (world f))))
                (confirmation_mail_new cfg (saved_row new_email f)));
      cbn [snd world];
      eexists; (split; [apply Hsent|]); split;
      [reflexivity | intros ->; reflexivity
      | reflexivity | intros ->; reflexivity].
  - intros Hdown. subst out.
    rewrite (change_email_saved cfg _ _ Hok), send_confirmation_email_run.
    cbv zeta.
    change (self (saved_frame new_email f)) with (saved_row new_email f).
    fold old. rewrite Hlog, Hdown. cbn [snd world].
    unfold sent_during. cbn [mail_log log_mail]. rewrite Hlog.
    apply drop_app_length.
Qed.

End Durability.

(** ** The methods on concrete inputs *)

(** [splitlines] on the shapes that matter: no line for the empty text,
    one empty line for a lone boundary, no extra line after a final
    boundary, CR LF as one boundary. *)
Example splitlines_shapes :
  splitlines "" = [] /\
  splitlines (String LF "") = [""] /\
  splitlines ("ab" ++ String LF "") = ["ab"] /\
  splitlines ("a" ++ String CR (String LF (String LF "b"))) = ["a"; ""; "b"] /\
  splitlines ("a" ++ String LF (String CR "b")) = ["a"; ""; "b"] /\
  single_line ("Your new" ++ String CR (String LF " email") ++ String LF "")
    = "Your new email".
Proof. repeat split; reflexivity. Qed.

(** Two calls for alice, first [new@x.com], then [newer@x.com]: the stored
    row holds the second address, the key of the second call (the key of
    the first call is another one) and the time of the second call. *)
Lemma change_email_last_write_wins_witness :
  let C := demo_collaborators transport_up no_perms in
  let f := alice_frame pending_key "" (midnight 734139) in
  let first :=
    change_email_calls (C := C) (demo_cfg 2)
      [(midnight 734140, "new@x.com")] f in
  let after :=
    change_email_calls (C := C) (demo_cfg 2)
      [(midnight 734140, "new@x.com"); (midnight 734141, "newer@x.com")] f in
  db (world after) !! 1 = Some (self after) /\
  email_unconfirmed (self after) = "newer@x.com" /\
  email_confirmation_key (self after) = pad_to 40 "b0000alice" /\
  email_confirmation_key (self first) = pad_to 40 "a0000alice" /\
  email_confirmation_key_created (self after) = Some (midnight 734141).
Proof.
  intros C f first after.
  destruct (change_email_last_write_wins (C := C) (demo_cfg 2)
              [(midnight 734140, "new@x.com")] (midnight 734141)
              "newer@x.com" f)
    as (Hdb & _ & Hmail & Hkey & Hcreated & _).
  - reflexivity.
  - split; [exact Hdb|]. split; [exact Hmail|]. split; [exact Hkey|].
    split; [reflexivity | exact Hcreated].
Defined.

(** A second signup instance for alice, never saved, while her row is in
    the table: the table refuses it, so after [new@x.com] and then
    [newer@x.com] the table is as it was and no row holds [newer@x.com]. *)
Lemma change_email_refused_for_second_signup :
  let C := demo_collaborators transport_up no_perms in
  let f := alice_again (midnight 734139) in
  let after :=
    change_email_calls (C := C) (demo_cfg 2)
      [(midnight 734140, "new@x.com"); (midnight 734141, "newer@x.com")] f in
  user (self f) = alice /\
  db (world after) = db (world f) /\
  db (world after) !! 1 = Some (alice_signup pending_key "") /\
  (forall k row, db (world after) !! k = Some row ->
                 email_unconfirmed row <> "newer@x.com").
Proof.
  intros C f after.
  assert (Hdb : db (world after) = db (world f)).
  { apply (change_email_calls_refused (C := C)). reflexivity. }
  split; [reflexivity|]. split; [exact Hdb|]. rewrite Hdb.
  split; [reflexivity|].
  intros k row Hrow. cbn [f alice_again world demo_world db] in Hrow.
  apply lookup_singleton_Some in Hrow. destruct Hrow as [_ <-].
  discriminate.
Qed.

(** The transport is down when alice asks for [new@x.com]: the call
    raises, and the row in the table holds the new address all the same. *)
Lemma change_email_saves_before_sending_witness :
  let C := demo_collaborators (transport_down_at 0) no_perms in
  let f := alice_frame pending_key "" (midnight 734139) in
  let out := change_email (C := C) (demo_cfg 2) "new@x.com" f in
  fst out = Raise SMTPException /\
  exists row,
    db (world (snd out)) !! 1 = Some row /\
    email_unconfirmed row = "new@x.com" /\
    email_confirmation_key row = pad_to 40 "a0000alice" /\
    email_confirmation_key_created row = Some (midnight 734139).
Proof.
  intros C f out.
  destruct (change_email_saves_before_sending (C := C) (demo_cfg 2)
              "new@x.com" f) as [Haccepted _].
  destruct Haccepted
    as (_ & _ & _ & Hmail & Hkey & Hcreated & _ & _ & Hraise & _);
    [reflexivity|].
  split; [reflexivity|].
  exists (saved_row (C := C) "new@x.com" f).
  split; [apply (Hraise SMTPException); reflexivity|].
  split; [exact Hmail|]. split; [exact Hkey | exact Hcreated].
Defined.

(** The second, unsaved signup for alice asks for [new@x.com]: the save
    raises [IntegrityError], the table is as it was, no row holds the new
    address and no mail call was made. *)
Lemma change_email_stores_nothing_when_refused :
  let C := demo_collaborators transport_up no_perms in
  let f := alice_again (midnight 734139) in
  let out := change_email (C := C) (demo_cfg 2) "new@x.com" f in
  fst out = Raise IntegrityError /\
  db (world (snd out)) = db (world f) /\
  (forall k row, db (world (snd out)) !! k = Some row ->
                 email_unconfirmed row <> "new@x.com") /\
  mail_log (world (snd out)) = [].
Proof.
  intros C f out.
  assert (Hout : out = (Raise IntegrityError,
                        refused_frame (C := C) "new@x.com" f)).
  { apply change_email_refused. reflexivity. }
  rewrite Hout. split; [reflexivity|]. split; [reflexivity|].
  split; [|reflexivity].
  intros k row Hrow. cbn [snd refused_frame world count_draw db f alice_again
                          demo_world] in Hrow.
  apply lookup_singleton_Some in Hrow. destruct Hrow as [_ <-].
  discriminate.
Qed.

(** alice asks for the empty address while the transport works: the row
    has a key and no pending address, and the second mail goes to the
    empty address. *)
Lemma change_email_any_string_witness :
  let C := demo_collaborators transport_up no_perms in
  let f := alice_frame pending_key "" (midnight 734139) in
  let out := change_email (C := C) (demo_cfg 2) "" f in
  (exists row,
     db (world (snd out)) !! 1 = Some row /\
     email_unconfirmed row = "" /\
     email_confirmation_key row <> "") /\
  (exists c1 c2,
     sent_during (world f) (world (snd out)) = [c1; c2] /\
     recipient_list (mail c1) = ["alice@x.com"] /\
     recipient_list (mail c2) = [""]).
Proof.
  intros C f out.
  destruct (change_email_any_string (C := C) (demo_cfg 2) "" f)
    as [(row & Hdb & Hmail & _ & Hkey & _) [Hsends _]]; [reflexivity|].
  split.
  - exists row. split; [exact Hdb|]. split; [exact Hmail | exact Hkey].
  - destruct Hsends as (c & Hsent & _ & Hto); [reflexivity|].
    eexists; exists c. split; [exact Hsent|]. split; [reflexivity|].
    apply Hto. reflexivity.
Defined.

(** alice asks for the empty address while the transport is down: the
    call raises after the old-address call, and no call went to the empty
    address.  And for the second, unsaved signup of alice nothing is
    stored: the row of the table keeps its empty confirmation key. *)
Lemma change_email_empty_address_not_mailed :
  let down := demo_collaborators (transport_down_at 0) no_perms in
  let up := demo_collaborators transport_up no_perms in
  let out := change_email (C := down) (demo_cfg 2) ""
               (alice_frame pending_key "" (midnight 734139)) in
  let out2 := change_email (C := up) (demo_cfg 2) ""
                (alice_again (midnight 734139)) in
  fst out = Raise SMTPException /\
  ~ attempted_to [""] (mail_log (world (snd out))) /\
  fst out2 = Raise IntegrityError /\
  (forall k row, db (world (snd out2)) !! k = Some row ->
                 email_confirmation_key row = "") /\
  mail_log (world (snd out2)) = [].
Proof.
  intros down up out out2.
  assert (Hout : out =
            send_confirmation_email (C := down) (demo_cfg 2)
              (saved_frame (C := down) ""
                 (alice_frame pending_key "" (midnight 734139)))).
  { apply change_email_saved. reflexivity. }
  rewrite send_confirmation_email_run in Hout.
  assert (Hout2 : out2 = (Raise IntegrityError,
                          refused_frame (C := up) ""
                            (alice_again (midnight 734139)))).
  { apply change_email_refused. reflexivity. }
  rewrite Hout, Hout2.
  split; [reflexivity|]. split.
  - intros (c & Hin & Hto). cbn in Hin.
    apply list_elem_of_singleton in Hin. subst c. discriminate Hto.
  - split; [reflexivity|]. split; [|reflexivity].
    intros k row Hrow.
    cbn [snd refused_frame world count_draw db alice_again demo_world] in Hrow.
    apply lookup_singleton_Some in Hrow. destruct Hrow as [_ <-].
    reflexivity.
Qed.

(** ** More on the expiry of activation keys *)

Section ExpiryMore.

(** The method is its verdict, and the frame is handed back untouched. *)
Lemma activation_key_expired_verdict (cfg : Configuration)
    (f : Frame UserenaSignup) :
  activation_key_expired cfg f =
    (expiry_verdict (userena_settings cfg) (self f) (clock (world f)), f).
Proof.
  destruct f as [s w].
  unfold activation_key_expired, expiry_verdict, bind, get_self, gets, lift.
  cbn [self world].
  destruct (timedelta_days _) as [d|e]; [|reflexivity].
  destruct (datetime_add _ _) as [x|e]; [|reflexivity].
  destruct (String.eqb _ _); [reflexivity|].
  unfold in_world, datetime_now, gets, ret; cbn [self world orb].
  rewrite Z.geb_leb. destruct (x <=? clock w); reflexivity.
Qed.

Lemma expiry_verdict_true (conf : UserenaSettings) (s : UserenaSignup)
    (now : datetime) :
  expiry_verdict conf s now = Ok true <->
  timedelta_days (USERENA_ACTIVATION_DAYS conf)
    = Ok (USERENA_ACTIVATION_DAYS conf * US_PER_DAY) /\
  in_datetime_range
    (date_joined (user s) + USERENA_ACTIVATION_DAYS conf * US_PER_DAY) = true /\
  (activation_key s = USERENA_ACTIVATED conf \/
   date_joined (user s) + USERENA_ACTIVATION_DAYS conf * US_PER_DAY <= now).
Proof.
  unfold expiry_verdict, timedelta_days, datetime_add.
  destruct ((-999999999 <=? USERENA_ACTIVATION_DAYS conf)
            && (USERENA_ACTIVATION_DAYS conf <=? 999999999)).
  - destruct (in_datetime_range _).
    + rewrite <- String.eqb_eq, <- Z.leb_le, <- orb_true_iff.
      split.
      * intros H. injection H as H. auto.
      * intros (_ & _ & H). rewrite H. reflexivity.
    + split; [discriminate | intros (_ & H & _); discriminate H].
  - split; [discriminate | intros (H & _); discriminate H].
Qed.

(** X1: [activation_key_expired] raises exactly when the expiry date
    cannot be computed: when [USERENA_ACTIVATION_DAYS] is more than
    999999999 days either way, or when [date_joined] plus the window
    leaves the datetime range.  The exception is [OverflowError], it does
    not depend on the activation key or on the clock, and in every case
    the instance and the world are left as they were. *)
Theorem activation_key_expired_raises_iff (cfg : Configuration)
    (f : Frame UserenaSignup) :
  let conf := userena_settings cfg in
  let days := USERENA_ACTIVATION_DAYS conf in
  let out := activation_key_expired cfg f in
  snd out = f /\
  (fst out = Raise OverflowError <->
     days < -999999999 \/ 999999999 < days \/
     in_datetime_range (date_joined (user (self f)) + days * US_PER_DAY) = false) /\
  ((exists b, fst out = Ok b) \/ fst out = Raise OverflowError) /\
  (forall key t,
     fst out = Raise OverflowError ->
     fst (activation_key_expired cfg
            {| self := set_activation_key key (self f);
               world := set_clock t (world f) |})
     = Raise OverflowError).
Proof.
  intros conf days out. subst out.
  rewrite activation_key_expired_verdict. cbn [fst snd].
  split; [reflexivity|].
  assert (Hraise : forall s now,
            date_joined (user s) = date_joined (user (self f)) ->
            (expiry_verdict conf s now = Raise OverflowError <->
             days < -999999999 \/ 999999999 < days \/
             in_datetime_range
               (date_joined (user (self f)) + days * US_PER_DAY) = false)).
  { intros s now Hjoined.
    unfold expiry_verdict, timedelta_days, datetime_add. fold days.
    rewrite Hjoined.
    destruct (Z.leb_spec (-999999999) days) as [Hlo|Hlo];
      destruct (Z.leb_spec days 999999999) as [Hhi|Hhi]; cbn [andb].
    - destruct (in_datetime_range _).
      + split; [discriminate|]. intros [H|[H|H]]; [lia | lia | discriminate H].
      + split; [auto | reflexivity].
    - split; [intros _; right; left; exact Hhi | reflexivity].
    - split; [intros _; left; exact Hlo | reflexivity].
    - split; [intros _; left; exact Hlo | reflexivity]. }
  split; [apply Hraise; reflexivity|].
  split.
  - unfold expiry_verdict, timedelta_days, datetime_add.
    destruct (_ && _); [|right; reflexivity].
    destruct (in_datetime_range _); [left; eexists; reflexivity | right; reflexivity].
  - intros key t Hout. rewrite activation_key_expired_verdict. cbn [fst self world].
    apply Hraise; [reflexivity|].
    apply (Hraise (self f) (clock (world f))); [reflexivity | exact Hout].
Qed.

(** X2: an expired key stays expired.  If the method returns [True] when
    the clock shows [t], it returns [True] at every later time, for the
    same instance and settings. *)
Theorem activation_key_expired_stays (cfg : Configuration)
    (f : Frame UserenaSignup) (t t' : datetime) :
  t <= t' ->
  fst (activation_key_expired cfg (at_time t f)) = Ok true ->
  fst (activation_key_expired cfg (at_time t' f)) = Ok true.
Proof.
  intros Hle. rewrite !activation_key_expired_verdict. cbn [fst at_time self world].
  unfold set_clock; cbn [clock].
  rewrite !expiry_verdict_true.
  intros (Hdays & Hdate & [Hkey|Hnow]); repeat split; auto.
  right. lia.
Qed.

(** X3: shortening the window never brings a key back.  For an account
    whose [date_joined] is a datetime, if the key is expired under a window
    of [days2] days it is expired under every window of [days1] days with
    [0 <= days1 <= days2]. *)
Theorem activation_key_expired_shorter_window (cfg : Configuration)
    (f : Frame UserenaSignup) (days1 days2 : Z) :
  in_datetime_range (date_joined (user (self f))) = true ->
  0 <= days1 <= days2 ->
  fst (activation_key_expired (with_activation_days days2 cfg) f) = Ok true ->
  fst (activation_key_expired (with_activation_days days1 cfg) f) = Ok true.
Proof.
  intros Hjoined Hdays. rewrite !activation_key_expired_verdict. cbn [fst].
  rewrite !expiry_verdict_true.
  unfold with_activation_days;
    cbn [userena_settings USERENA_ACTIVATION_DAYS USERENA_ACTIVATED].
  unfold timedelta_days, in_datetime_range in *.
  unfold datetime_min, datetime_max, MAXORDINAL, US_PER_DAY in *.
  apply andb_true_iff in Hjoined. destruct Hjoined as [Hj1 Hj2].
  apply Z.leb_le in Hj1, Hj2.
  intros (Hd & Hdate & Hwhy).
  apply andb_true_iff in Hdate. destruct Hdate as [Hd1 Hd2].
  apply Z.leb_le in Hd1, Hd2.
  split; [|split].
  - replace ((-999999999 <=? days1) && (days1 <=? 999999999)) with true;
      [reflexivity|].
    symmetry. apply andb_true_intro. split; apply Z.leb_le; lia.
  - apply andb_true_intro. split; apply Z.leb_le; lia.
  - destruct Hwhy as [Hkey|Hnow]; [left; exact Hkey | right; lia].
Qed.

End ExpiryMore.

(** ** How the methods of a signup compose *)

Section Composition.
Context {C : Collaborators}.
Variable cfg : Configuration.

(** The verdict reads the join date, the activation key and the clock. *)
Lemma expiry_verdict_reads (conf : UserenaSettings) (s1 s2 : UserenaSignup)
    (now : datetime) :
  user s1 = user s2 -> activation_key s1 = activation_key s2 ->
  expiry_verdict conf s1 now = expiry_verdict conf s2 now.
Proof. unfold expiry_verdict. intros -> ->. reflexivity. Qed.

(** What [send_confirmation_email] leaves alone. *)
Lemma send_confirmation_email_keeps (f : Frame UserenaSignup) :
  let out := send_confirmation_email cfg f in
  self (snd out) = self f /\
  db (world (snd out)) = db (world f) /\
  next_id (world (snd out)) = next_id (world f) /\
  clock (world (snd out)) = clock (world f) /\
  random_draws (world (snd out)) = random_draws (world f) /\
  perm_lookups (world (snd out)) = perm_lookups (world f).
Proof.
  cbv zeta. rewrite send_confirmation_email_run. cbv zeta.
  destruct (transport_raises _ _); [|destruct (transport_raises _ _)];
    repeat split; reflexivity.
Qed.

(** X4: asking for another email address, or sending either kind of mail,
    does not move the expiry of the activation key: after [change_email],
    [send_confirmation_email] or [send_activation_email], whether it
    returned or raised, [activation_key_expired] gives what it gave
    before. *)
Theorem expiry_unchanged_by_mail_methods (new_email : string)
    (f : Frame UserenaSignup) :
  let before := fst (activation_key_expired cfg f) in
  fst (activation_key_expired cfg (snd (change_email cfg new_email f))) = before /\
  fst (activation_key_expired cfg (snd (send_confirmation_email cfg f))) = before /\
  fst (activation_key_expired cfg (snd (send_activation_email cfg f))) = before.
Proof.
  intros before. subst before. rewrite !activation_key_expired_verdict.
  cbn [fst]. split; [|split].
  - destruct (save_accepted (self f) (world f)) eqn:Hok.
    + destruct (change_email_state cfg new_email f Hok)
        as (Hself & _ & _ & Hclock & _).
      destruct (saved_row_fields new_email f)
        as (_ & _ & _ & _ & Huser & _ & Hkey & _).
      rewrite Hclock, Hself. apply expiry_verdict_reads; assumption.
    + rewrite (change_email_refused cfg new_email f Hok). reflexivity.
  - destruct (send_confirmation_email_keeps f) as (Hself & _ & _ & Hclock & _).
    rewrite Hclock, Hself. reflexivity.
  - rewrite send_activation_email_run. reflexivity.
Qed.

(** X5: the mails of an accepted [change_email] are rendered from the row
    as it was saved.  When the table accepts the save, the old-address
    call is made, every call made is the old-address or the new-address
    mail built from the row that the table holds afterwards, and the
    context of these mails carries that row's confirmation key, the
    address given, the user, the protocol (['https'] when
    [USERENA_USE_HTTPS] is set, ['http'] if not) and the current site. *)
Theorem change_email_mails_the_stored_key (new_email : string)
    (f : Frame UserenaSignup) :
  let out := change_email cfg new_email f in
  let k := row_key (self f) (world f) in
  save_accepted (self f) (world f) = true ->
  exists row,
    db (world (snd out)) !! k = Some row /\
    self (snd out) = row /\
    (exists c, sent_during (world f) (world (snd out)) !! 0%nat = Some c /\
               mail c = confirmation_mail_old cfg row) /\
    Forall (fun c => mail c = confirmation_mail_old cfg row \/
                     mail c = confirmation_mail_new cfg row)
      (sent_during (world f) (world (snd out))) /\
    confirmation_context cfg row !! "confirmation_key"
      = Some (CtxStr (email_confirmation_key row)) /\
    confirmation_context cfg row !! "new_email" = Some (CtxStr new_email) /\
    confirmation_context cfg row !! "user" = Some (CtxUser (user (self f))) /\
    confirmation_context cfg row !! "protocol" =
      Some (CtxStr (if USERENA_USE_HTTPS (userena_settings cfg)
                    then "https" else "http")) /\
    confirmation_context cfg row !! "site" = Some (CtxSite get_current).
Proof.
  intros out k Hok. exists (saved_row new_email f).
  destruct (change_email_state cfg new_email f Hok) as (Hself & Hdb & _).
  fold out in Hself, Hdb. rewrite Hdb.
  split; [apply lookup_insert_eq|]. split; [exact Hself|].
  assert (H1 : forall c,
            sent_during (world f) (log_mail c (world (saved_frame new_email f)))
            = [c]).
  { intros c. unfold sent_during. cbn [mail_log log_mail].
    change (mail_log (world (saved_frame new_email f)))
      with (mail_log (world f)).
    apply drop_app_length. }
  assert (H2 : forall c1 c2,
            sent_during (world f)
              (log_mail c2 (log_mail c1 (world (saved_frame new_email f))))
            = [c1; c2]).
  { intros c1 c2. unfold sent_during. cbn [mail_log log_mail].
    change (mail_log (world (saved_frame new_email f)))
      with (mail_log (world f)).
    rewrite <- app_assoc. apply drop_app_length. }
  split; [|split].
  - subst out.
    rewrite (change_email_saved cfg _ _ Hok), send_confirmation_email_run.
    cbv zeta.
    change (self (saved_frame new_email f)) with (saved_row new_email f).
    destruct (transport_raises _ _); [|destruct (transport_raises _ _)];
      cbn [snd world]; rewrite ?H1, ?H2;
      eexists; split; reflexivity.
  - subst out.
    rewrite (change_email_saved cfg _ _ Hok), send_confirmation_email_run.
    cbv zeta.
    change (self (saved_frame new_email f)) with (saved_row new_email f).
    destruct (transport_raises _ _); [|destruct (transport_raises _ _)];
      cbn [snd world]; rewrite ?H1, ?H2;
      repeat (apply List.Forall_cons || apply List.Forall_nil);
      cbn [mail]; auto.
  - unfold confirmation_context.
    repeat (split;
            [repeat (rewrite lookup_insert_eq
                     || rewrite lookup_insert_ne by discriminate);
             reflexivity|]).
    repeat (rewrite lookup_insert_eq
            || rewrite lookup_insert_ne by discriminate).
    reflexivity.
Qed.

(** X6: the outcomes of [send_confirmation_email].  The call to the old
    address is always made, and made first; the call to the new address
    follows exactly when the first returned.  The method returns normally
    exactly when both calls were made and both returned; if the second
    raises, the first mail has gone out all the same.  Both mails have the
    same sender, and nothing but the mail log changes. *)
Theorem send_confirmation_email_outcomes (f : Frame UserenaSignup) :
  let out := send_confirmation_email cfg f in
  let sent := sent_during (world f) (world (snd out)) in
  let old := confirmation_mail_old cfg (self f) in
  let new := confirmation_mail_new cfg (self f) in
  (exists c1, sent !! 0%nat = Some c1 /\ mail c1 = old /\
     (delivered c1 = false <-> sent = [c1]) /\
     (delivered c1 = true <->
        exists c2, sent = [c1; c2] /\ mail c2 = new)) /\
  (fst out = Ok tt <->
     exists c1 c2, sent = [c1; c2] /\ delivered c1 = true /\ delivered c2 = true) /\
  (fst out = Ok tt \/ fst out = Raise SMTPException) /\
  from_email old = from_email new /\
  mail_log (world (snd out)) = (mail_log (world f) ++ sent)%list /\
  self (snd out) = self f /\
  db (world (snd out)) = db (world f) /\
  clock (world (snd out)) = clock (world f) /\
  random_draws (world (snd out)) = random_draws (world f).
Proof.
  intros out sent old new. subst sent out.
  rewrite send_confirmation_email_run. cbv zeta. fold old. fold new.
  destruct (transport_raises (length (mail_log (world f))) old);
    [|destruct (transport_raises (S (length (mail_log (world f)))) new)];
    cbn [snd fst world]; rewrite ?sent_during_log, ?sent_during_log2.
  - split.
    { eexists. split; [reflexivity|]. split; [reflexivity|]. split.
      - split; reflexivity.
      - split; [discriminate|]. intros (c2 & H & _). discriminate H. }
    split.
    { split; [discriminate|]. intros (c1 & c2 & H & _). discriminate H. }
    split; [right; reflexivity|]. repeat split; reflexivity.
  - split.
    { eexists. split; [reflexivity|]. split; [reflexivity|]. split.
      - split; discriminate.
      - split; [|reflexivity]. intros _. eexists. split; reflexivity. }
    split.
    { split; [discriminate|]. intros (c1 & c2 & H & _ & Hd).
      injection H as <- <-. discriminate Hd. }
    split; [right; reflexivity|].
    split; [reflexivity|]. split; [cbn [mail_log log_mail]; now rewrite <- app_assoc|].
    repeat split; reflexivity.
  - split.
    { eexists. split; [reflexivity|]. split; [reflexivity|]. split.
      - split; discriminate.
      - split; [|reflexivity]. intros _. eexists. split; reflexivity. }
    split.
    { split; [|reflexivity]. intros _. do 2 eexists. repeat split; reflexivity. }
    split; [left; reflexivity|].
    split; [reflexivity|]. split; [cbn [mail_log log_mail]; now rewrite <- app_assoc|].
    repeat split; reflexivity.
Qed.

(** X7: nothing holds back a second activation mail.  Two calls of
    [send_activation_email] in a row make two [send_mail] calls with the
    same mail, whatever [activation_notification_send] says, and the flag
    is left as it was. *)
Theorem send_activation_email_twice (f : Frame UserenaSignup) :
  let out1 := send_activation_email cfg f in
  let out2 := send_activation_email cfg (snd out1) in
  exists c1 c2,
    sent_during (world f) (world (snd out2)) = [c1; c2] /\
    mail c1 = activation_mail cfg (self f) /\
    mail c2 = activation_mail cfg (self f) /\
    activation_notification_send (self (snd out2))
      = activation_notification_send (self f).
Proof.
  intros out1 out2. subst out2 out1.
  rewrite (send_activation_email_run cfg f). cbv zeta. cbn [snd].
  rewrite send_activation_email_run. cbv zeta. cbn [snd self world].
  do 2 eexists. rewrite sent_during_log2.
  repeat split; reflexivity.
Qed.

End Composition.

(** ** More on the profile *)

Section ProfileMore.
Context {C : Collaborators}.

(** The answer of [can_view_profile] in one expression. *)
Lemma can_view_profile_verdict (viewer : Viewer) (f : Frame UserenaBaseProfile) :
  fst (can_view_profile viewer f) =
    Ok (String.eqb (privacy (self f)) "open"
        || String.eqb (privacy (self f)) "registered" && isinstance_User viewer
        || py_in "view_profile" (get_perms viewer (self f))).
Proof.
  destruct f as [p w].
  unfold can_view_profile, bind, get_self, gets, in_world, lookup_perms.
  cbn [self world].
  destruct (String.eqb (privacy p) "open"); [reflexivity|].
  destruct (String.eqb (privacy p) "registered" && isinstance_User viewer);
    [reflexivity|].
  cbn [orb]. destruct (py_in _ _); reflexivity.
Qed.

(** X8: visibility grows with the privacy level.  When the permissions
    guardian reports for a viewer do not depend on the profile's privacy
    field: an ['open'] profile is visible; whoever may see the profile
    when it is ['closed'] may see it under every other privacy value; and
    a privacy value that is neither ['open'] nor ['registered'] (a value
    outside the choices) decides as ['closed'] does. *)
Theorem can_view_profile_monotone (viewer : Viewer) (p : UserenaBaseProfile)
    (w : World) :
  let visible (v : string) :=
    fst (can_view_profile viewer {| self := set_privacy v p; world := w |})
    = Ok true in
  (forall v, get_perms viewer (set_privacy v p) = get_perms viewer p) ->
  visible "open" /\
  (forall v, visible "closed" -> visible v) /\
  (forall v, v <> "open" -> v <> "registered" ->
     (visible v <-> visible "closed")).
Proof.
  intros visible Hperms. subst visible. cbv beta.
  split; [|split].
  - rewrite can_view_profile_verdict. reflexivity.
  - intros v. rewrite !can_view_profile_verdict. cbn [self set_privacy privacy].
    rewrite !Hperms.
    change (String.eqb "closed" "open") with false.
    change (String.eqb "closed" "registered") with false.
    cbn [orb andb]. intros H. injection H as H. rewrite H.
    now rewrite orb_true_r.
  - intros v Hopen Hreg. rewrite !can_view_profile_verdict.
    cbn [self set_privacy privacy]. rewrite !Hperms.
    apply String.eqb_neq in Hopen, Hreg. rewrite Hopen, Hreg.
    reflexivity.
Qed.

(** X9: [can_view_profile] always answers and only reads.  It never
    raises; it answers [True] exactly when the profile is ['open'], or it
    is ['registered'] and the viewer is a [User] instance, or the viewer
    holds ['view_profile']; and of the instance and the world it changes
    nothing, except that at most one permission lookup, for this viewer
    and profile, is added to the lookups made. *)
Theorem can_view_profile_reads_only (viewer : Viewer)
    (f : Frame UserenaBaseProfile) :
  let out := can_view_profile viewer f in
  let p := self f in
  (exists b, fst out = Ok b) /\
  (fst out = Ok true <->
     privacy p = "open" \/
     (privacy p = "registered" /\ isinstance_User viewer = true) \/
     "view_profile" ∈ get_perms viewer p) /\
  self (snd out) = p /\
  db (world (snd out)) = db (world f) /\
  mail_log (world (snd out)) = mail_log (world f) /\
  clock (world (snd out)) = clock (world f) /\
  random_draws (world (snd out)) = random_draws (world f) /\
  next_id (world (snd out)) = next_id (world f) /\
  (perm_lookups (world (snd out)) = perm_lookups (world f) \/
   perm_lookups (world (snd out)) = (perm_lookups (world f) ++ [(viewer, p)])%list).
Proof.
  intros out p. subst out p.
  split; [rewrite can_view_profile_verdict; eexists; reflexivity|].
  split.
  { rewrite can_view_profile_verdict.
    rewrite <- py_in_elem_of, <- !String.eqb_eq.
    rewrite <- andb_true_iff, <- !orb_true_iff, orb_assoc.
    split; [intros H; injection H as H; exact H | intros ->; reflexivity]. }
  destruct f as [q w].
  unfold can_view_profile, bind, get_self, gets, in_world, lookup_perms.
  cbn [self world].
  destruct (String.eqb (privacy q) "open");
    [repeat split; left; reflexivity|].
  destruct (String.eqb (privacy q) "registered" && isinstance_User viewer);
    [repeat split; left; reflexivity|].
  destruct (py_in _ _); repeat split; right; reflexivity.
Qed.

(** X10: when [get_mugshot_url] gives [None].  The method never raises
    and changes nothing; it returns [None] exactly when there is no
    stored mugshot, Gravatar is off and the configured default is one of
    the five Gravatar keywords; and with no mugshot and Gravatar off it
    never hands out one of those keywords as if it were a URL. *)
Theorem get_mugshot_url_none_iff (cfg : Configuration)
    (f : Frame UserenaBaseProfile) :
  let conf := userena_settings cfg in
  let out := get_mugshot_url cfg f in
  snd out = f /\
  (exists r, fst out = Ok r) /\
  (fst out = Ok None <->
     mugshot (self f) = "" /\ USERENA_MUGSHOT_GRAVATAR conf = false /\
     USERENA_MUGSHOT_DEFAULT conf ∈ ["404"; "mm"; "identicon"; "monsterid"; "wavatar"]) /\
  (forall url,
     mugshot (self f) = "" -> USERENA_MUGSHOT_GRAVATAR conf = false ->
     fst out = Ok (Some url) ->
     url ∉ ["404"; "mm"; "identicon"; "monsterid"; "wavatar"]).
Proof.
  intros conf out. subst out. destruct f as [q w].
  unfold get_mugshot_url, bind, get_self, gets. cbv beta iota. cbn [self].
  fold conf. fold gravatar_builtins.
  destruct (String.eqb_spec (mugshot q) "") as [Hshot|Hshot]; cbn [negb].
  - destruct (USERENA_MUGSHOT_GRAVATAR conf) eqn:Hgrav.
    + split; [reflexivity|]. split; [eexists; reflexivity|]. split.
      * split; [discriminate | intros (_ & H & _); discriminate H].
      * intros url _ H. discriminate H.
    + destruct (py_in (USERENA_MUGSHOT_DEFAULT conf) gravatar_builtins) eqn:Hin;
        cbn [negb].
      * split; [reflexivity|]. split; [eexists; reflexivity|]. split.
        -- split; [|reflexivity]. intros _. repeat split; try assumption.
           apply py_in_elem_of. exact Hin.
        -- intros url _ _ H. discriminate H.
      * split; [reflexivity|]. split; [eexists; reflexivity|]. split.
        -- split; [discriminate|]. intros (_ & _ & H).
           apply py_in_elem_of in H. rewrite Hin in H. discriminate H.
        -- intros url _ _ H. cbn [fst ret] in H. injection H as <-.
           intros Hurl. apply py_in_elem_of in Hurl.
           fold gravatar_builtins in Hurl. rewrite Hin in Hurl.
           discriminate Hurl.
  - split; [reflexivity|]. split; [eexists; reflexivity|]. split.
    + split; [discriminate | intros (H & _); contradiction].
    + intros url H. contradiction.
Qed.

(** X11: a stored mugshot wins over every setting.  When the profile has
    a mugshot, [get_mugshot_url] returns the URL of that file under any
    two configurations alike: the Gravatar switch, the size and the
    default image play no part. *)
Theorem get_mugshot_url_stored_wins (cfg1 cfg2 : Configuration)
    (f : Frame UserenaBaseProfile) :
  mugshot (self f) <> "" ->
  get_mugshot_url cfg1 f = get_mugshot_url cfg2 f /\
  fst (get_mugshot_url cfg1 f) = Ok (Some (mugshot_url (mugshot (self f)))).
Proof.
  intros Hshot. destruct f as [q w]. cbn [self] in Hshot.
  unfold get_mugshot_url, bind, get_self, gets. cbv beta iota. cbn [self].
  apply String.eqb_neq in Hshot. rewrite Hshot. split; reflexivity.
Qed.

End ProfileMore.

(** ** More on the subject line *)

Section SubjectMore.

Lemma drop_linebreaks_app (a b : string) :
  drop_linebreaks (a ++ b) = (drop_linebreaks a ++ drop_linebreaks b)%string.
Proof.
  induction a as [|c a IH]; simpl; [reflexivity|].
  destruct (is_linebreak c); simpl; now rewrite IH.
Qed.

Lemma drop_linebreaks_length (s : string) :
  (String.length (drop_linebreaks s) <= String.length s)%nat.
Proof.
  induction s as [|c s IH]; simpl; [lia|].
  destruct (is_linebreak c); simpl; lia.
Qed.

Lemma drop_linebreaks_fixed (s : string) :
  drop_linebreaks s = s <-> no_linebreak s = true.
Proof.
  split.
  - intros <-. apply drop_linebreaks_clean.
  - induction s as [|c s IH]; simpl; [reflexivity|].
    intros H. apply andb_true_iff in H. destruct H as [Hc Hs].
    apply negb_true_iff in Hc. rewrite Hc, (IH Hs). reflexivity.
Qed.

Lemma no_linebreak_snoc (line : string) (c : ascii) :
  no_linebreak line = true -> is_linebreak c = false ->
  no_linebreak (line ++ String c "") = true.
Proof.
  intros Hline Hc. induction line as [|x line IH]; simpl in *.
  - now rewrite Hc.
  - apply andb_true_iff in Hline. destruct Hline as [Hx Hrest].
    now rewrite Hx, (IH Hrest).
Qed.

Lemma splitlines_from_clean (s line : string) :
  no_linebreak line = true ->
  Forall (fun l => no_linebreak l = true) (splitlines_from line s).
Proof.
  revert line. induction s as [|c rest IH]; intros line Hline; simpl.
  - destruct (String.eqb line ""); repeat constructor. exact Hline.
  - destruct (is_linebreak c) eqn:Hc.
    + constructor; [exact Hline|].
      destruct (Ascii.eqb c CR); [|apply IH; reflexivity].
      destruct rest as [|c' rest']; [apply IH; reflexivity|].
      destruct (Ascii.eqb_spec c' LF) as [->|_]; [|apply IH; reflexivity].
      specialize (IH "" eq_refl). simpl in IH.
      apply List.Forall_inv_tail in IH. exact IH.
    + apply IH. apply no_linebreak_snoc; assumption.
Qed.

Lemma splitlines_from_plain (s line : string) :
  no_linebreak s = true -> (line ++ s)%string <> "" ->
  splitlines_from line s = [(line ++ s)%string].
Proof.
  revert line. induction s as [|c rest IH]; intros line Hs Hne; simpl in *.
  - rewrite append_empty_r in *.
    destruct (String.eqb_spec line "") as [->|_]; [contradiction | reflexivity].
  - apply andb_true_iff in Hs. destruct Hs as [Hc Hrest].
    apply negb_true_iff in Hc. rewrite Hc.
    rewrite IH; rewrite ?append_assoc; simpl; auto.
Qed.

(** X12: cleaning a subject twice changes nothing more, and a subject is
    left as it is exactly when it has no line boundary in it:
    [''.join(s.splitlines())] is idempotent, and it returns [s] itself if
    and only if [s] is already a single line. *)
Theorem single_line_idempotent (s : string) :
  single_line (single_line s) = single_line s /\
  (single_line s = s <-> no_linebreak s = true).
Proof.
  rewrite !single_line_drop. split.
  - apply drop_linebreaks_fixed, drop_linebreaks_clean.
  - apply drop_linebreaks_fixed.
Qed.

(** X13: the lines of a subject are glued together with nothing between
    them.  The cleaned text of [a] followed by [b] is the cleaned [a]
    followed by the cleaned [b]; so around a line feed, or a carriage
    return and line feed, the words on both sides end up adjacent, without
    a space; and the cleaned subject is never longer than the rendered
    one. *)
Theorem single_line_glues (a b : string) :
  single_line (a ++ b) = (single_line a ++ single_line b)%string /\
  single_line (a ++ String LF b) = (single_line a ++ single_line b)%string /\
  single_line (a ++ String CR (String LF b))
    = (single_line a ++ single_line b)%string /\
  (String.length (single_line a) <= String.length a)%nat.
Proof.
  rewrite !single_line_drop, !drop_linebreaks_app.
  repeat split; try reflexivity. apply drop_linebreaks_length.
Qed.

(** X14: what [splitlines] returns.  No line it returns contains a line
    boundary; it returns no line at all exactly for the empty text; and a
    text that is not empty and has no boundary comes back as its one
    line. *)
Theorem splitlines_lines (s : string) :
  Forall (fun l => no_linebreak l = true) (splitlines s) /\
  (splitlines s = [] <-> s = "") /\
  (no_linebreak s = true -> s <> "" -> splitlines s = [s]).
Proof.
  split; [apply splitlines_from_clean; reflexivity|]. split.
  - split; [|intros ->; reflexivity].
    unfold splitlines. destruct s as [|c rest]; [reflexivity|]. simpl.
    destruct (is_linebreak c) eqn:Hc; [discriminate|].
    intros H. exfalso.
    assert (Hjoin := join_splitlines_from rest (String c "")).
    rewrite H in Hjoin. discriminate Hjoin.
  - intros Hs Hne. apply (splitlines_from_plain s ""); assumption.
Qed.

End SubjectMore.

(** ** The upload path of a mugshot *)

Section UploadMore.
Context {C : Collaborators}.
Variable cfg : Configuration.

Lemma lower_char_idempotent (c : ascii) : lower_char (lower_char c) = lower_char c.
Proof. destruct c as [[] [] [] [] [] [] [] []]; reflexivity. Qed.

Lemma lower_char_dot (c : ascii) : Ascii.eqb DOT (lower_char c) = Ascii.eqb DOT c.
Proof. destruct c as [[] [] [] [] [] [] [] []]; reflexivity. Qed.

Lemma lower_idempotent (s : string) : lower (lower s) = lower s.
Proof.
  induction s as [|c s IH]; simpl; [reflexivity|].
  now rewrite lower_char_idempotent, IH.
Qed.

Lemma occurs_dot_lower (s : string) : occurs DOT (lower s) = occurs DOT s.
Proof.
  induction s as [|c s IH]; cbn [lower occurs]; [reflexivity|].
  now rewrite lower_char_dot, IH.
Qed.

Lemma occurs_snoc (sep c : ascii) (part : string) :
  occurs sep (part ++ String c "") = occurs sep part || Ascii.eqb sep c.
Proof.
  induction part as [|x part IH]; cbn [occurs String.append].
  - now rewrite orb_false_r.
  - rewrite IH. now rewrite orb_assoc.
Qed.

Lemma split_from_nonempty (sep : ascii) (s part : string) :
  split_from sep part s <> [].
Proof.
  revert part. induction s as [|c rest IH]; intros part; cbn [split_from].
  - discriminate.
  - destruct (Ascii.eqb c sep); [discriminate | apply IH].
Qed.

Lemma last_part_cons (x : string) (l : list string) :
  l <> [] -> last_part (x :: l) = last_part l.
Proof. destruct l; [contradiction | reflexivity]. Qed.

(** Without a separator in it the text is the one piece. *)
Lemma split_from_plain (sep : ascii) (s part : string) :
  occurs sep s = false -> split_from sep part s = [(part ++ s)%string].
Proof.
  revert part. induction s as [|c rest IH]; intros part; cbn [split_from occurs].
  - now rewrite append_empty_r.
  - intros H. apply orb_false_iff in H. destruct H as [Hc Hrest].
    rewrite Ascii.eqb_sym, Hc. rewrite (IH _ Hrest), append_assoc. reflexivity.
Qed.

(** The last piece is what follows the last separator. *)
Lemma last_part_after_sep (sep : ascii) (stem ext part : string) :
  occurs sep ext = false ->
  last_part (split_from sep part (stem ++ String sep ext)) = ext.
Proof.
  intros Hext. revert part.
  induction stem as [|c stem IH]; intros part; cbn [String.append split_from].
  - rewrite Ascii.eqb_refl.
    rewrite last_part_cons by apply split_from_nonempty.
    now rewrite (split_from_plain _ _ "" Hext).
  - destruct (Ascii.eqb c sep).
    + rewrite last_part_cons by apply split_from_nonempty. apply IH.
    + apply IH.
Qed.

Lemma last_part_clean (sep : ascii) (s part : string) :
  occurs sep part = false ->
  occurs sep (last_part (split_from sep part s)) = false.
Proof.
  revert part. induction s as [|c rest IH]; intros part Hpart; cbn [split_from].
  - exact Hpart.
  - destruct (Ascii.eqb c sep) eqn:Hc.
    + rewrite last_part_cons by apply split_from_nonempty.
      apply IH. reflexivity.
    + apply IH. rewrite occurs_snoc, Hpart, Ascii.eqb_sym, Hc. reflexivity.
Qed.

Lemma slice_to_length (n : nat) (s : string) :
  String.length (slice_to n s) = Nat.min n (String.length s).
Proof.
  revert s. induction n as [|n IH]; intros s; [reflexivity|].
  destruct s as [|c s]; simpl; [reflexivity | now rewrite IH].
Qed.

(** The run of [upload_to_mugshot]. *)
Lemma upload_to_mugshot_run (instance_id : option Z) (filename : string)
    (w : World) :
  upload_to_mugshot cfg instance_id filename w =
    (Ok (USERENA_MUGSHOT_PATH (userena_settings cfg)
         ++ slice_to 10
              (sha_hexdigest (random_salt (random_draws w) ++ str_id instance_id))
         ++ String DOT "" ++ lower (last_part (split DOT filename)))%string,
     count_draw w).
Proof. reflexivity. Qed.

(** X15: the shape of an upload path.  [upload_to_mugshot] never raises
    and returns [USERENA_MUGSHOT_PATH], then the first 10 characters of a
    digest over a fresh salt and the instance's id, then a dot, then an
    extension that has no dot and no capital letter in it (lowering it
    again changes nothing).  It draws one salt and changes nothing else
    in the world. *)
Theorem upload_to_mugshot_shape (instance_id : option Z) (filename : string)
    (w : World) :
  exists name extension : string,
    upload_to_mugshot cfg instance_id filename w =
      (Ok (USERENA_MUGSHOT_PATH (userena_settings cfg)
           ++ name ++ String DOT "" ++ extension)%string,
       count_draw w) /\
    name = slice_to 10
             (sha_hexdigest (random_salt (random_draws w) ++ str_id instance_id)) /\
    String.length name = 10%nat /\
    occurs DOT extension = false /\
    lower extension = extension.
Proof.
  eexists; eexists. split; [apply upload_to_mugshot_run|].
  split; [reflexivity|]. split; [|split].
  - rewrite slice_to_length, sha_hexdigest_length. reflexivity.
  - rewrite occurs_dot_lower. apply last_part_clean. reflexivity.
  - apply lower_idempotent.
Qed.

(** X16: of the file name only the extension is kept.  Two file names
    whose parts after the last dot are the same up to the case of the
    letters get the same path from the same state of the world: the part
    of the name before the last dot plays no part. *)
Theorem upload_to_mugshot_drops_the_stem (instance_id : option Z)
    (stem1 stem2 ext1 ext2 : string) (w : World) :
  occurs DOT ext1 = false -> occurs DOT ext2 = false ->
  lower ext1 = lower ext2 ->
  upload_to_mugshot cfg instance_id (stem1 ++ String DOT ext1) w =
    upload_to_mugshot cfg instance_id (stem2 ++ String DOT ext2) w /\
  exists name,
    fst (upload_to_mugshot cfg instance_id (stem1 ++ String DOT ext1) w) =
      Ok (USERENA_MUGSHOT_PATH (userena_settings cfg)
          ++ name ++ String DOT "" ++ lower ext1)%string.
Proof.
  intros H1 H2 Hcase. rewrite !upload_to_mugshot_run. unfold split.
  rewrite !last_part_after_sep by assumption. rewrite Hcase.
  split; [reflexivity|]. eexists. reflexivity.
Qed.

(** X17: a file name without a dot is its own extension.  When the name
    has no dot, [split('.')[-1]] is the whole name, and the path ends in
    a dot followed by the whole name in lower case; for the empty name
    the path ends in the dot. *)
Theorem upload_to_mugshot_without_dot (instance_id : option Z)
    (filename : string) (w : World) :
  occurs DOT filename = false ->
  exists name,
    String.length name = 10%nat /\
    fst (upload_to_mugshot cfg instance_id filename w) =
      Ok (USERENA_MUGSHOT_PATH (userena_settings cfg)
          ++ name ++ String DOT "" ++ lower filename)%string.
Proof.
  intros Hplain. rewrite upload_to_mugshot_run. unfold split.
  rewrite (split_from_plain _ _ "" Hplain). cbn [last_part List.last fst].
  eexists. split; [|reflexivity].
  rewrite slice_to_length, sha_hexdigest_length. reflexivity.
Qed.

End UploadMore.

(** ** Asking for the address one already has *)

Section SameAddress.
Context {C : Collaborators}.
Variable cfg : Configuration.

(** X18: [change_email] does not compare the new address with the current
    one.  Called with the address the user already has, and the table
    accepting the save, it stores the pending change all the same, and
    when the first send returns both mails are addressed to that one
    address. *)
Theorem change_email_to_current_address (f : Frame UserenaSignup) :
  let current := email (user (self f)) in
  let out := change_email cfg current f in
  save_accepted (self f) (world f) = true ->
  transport_raises (length (mail_log (world f)))
    (confirmation_mail_old cfg (saved_row current f)) = false ->
  exists c1 c2 row,
    sent_during (world f) (world (snd out)) = [c1; c2] /\
    recipient_list (mail c1) = [current] /\
    recipient_list (mail c2) = [current] /\
    db (world (snd out)) !! row_key (self f) (world f) = Some row /\
    email_unconfirmed row = current /\
    email (user row) = current /\
    email_confirmation_key row = fresh_key (self f) (world f).
Proof.
  intros current out Hok Hup.
  destruct (change_email_state cfg current f Hok) as (_ & Hdb & _).
  fold out in Hdb.
  assert (Hsent : forall c c',
            sent_during (world f)
              (log_mail c' (log_mail c (world (saved_frame current f))))
            = [c; c']).
  { intros c c'. unfold sent_during. cbn [mail_log log_mail].
    change (mail_log (world (saved_frame current f))) with (mail_log (world f)).
    rewrite <- app_assoc. apply drop_app_length. }
  subst out. rewrite Hdb.
  rewrite (change_email_saved cfg _ _ Hok), send_confirmation_email_run.
  cbv zeta.
  change (self (saved_frame current f)) with (saved_row current f).
  change (mail_log (world (saved_frame current f))) with (mail_log (world f)).
  rewrite Hup.
  destruct (transport_raises (S (length (mail_log (world f))))
              (confirmation_mail_new cfg (saved_row current f)));
    cbn [snd world]; do 2 eexists; exists (saved_row current f);
    (split; [apply Hsent|]); split; try reflexivity;
    split; try reflexivity; split; try apply lookup_insert_eq;
    repeat split; reflexivity.
Qed.

End SameAddress.

(** ** The further properties on concrete inputs *)

(** alice's key is expired two days after she joined under a window of two
    days, and so it is nine days later. *)
Lemma activation_key_expired_stays_witness :
  fst (activation_key_expired (demo_cfg 2)
         (at_time (midnight 734149) (alice_frame pending_key "" 0))) = Ok true.
Proof.
  apply (activation_key_expired_stays (demo_cfg 2)
           (alice_frame pending_key "" 0) (midnight 734140) (midnight 734149)).
  - vm_compute. discriminate.
  - reflexivity.
Defined.

(** Eight days after she joined alice's key is expired under a window of
    seven days, and so it is under a window of two. *)
Lemma activation_key_expired_shorter_window_witness :
  fst (activation_key_expired (with_activation_days 2 (demo_cfg 0))
         (alice_frame pending_key "" (midnight 734146))) = Ok true.
Proof.
  apply (activation_key_expired_shorter_window (demo_cfg 0)
           (alice_frame pending_key "" (midnight 734146)) 2 7).
  - reflexivity.
  - vm_compute. split; discriminate.
  - reflexivity.
Defined.

(** A viewer that holds ['view_profile'] sees alice's profile when it is
    closed, and so also under a privacy value outside the choices. *)
Lemma can_view_profile_monotone_witness :
  fst (can_view_profile
         (C := demo_collaborators transport_up (fun _ _ => ["view_profile"]))
         AnonymousUser
         {| self := set_privacy "friends" (alice_profile "closed");
            world := demo_world 0 |}) = Ok true.
Proof.
  destruct (can_view_profile_monotone
              (C := demo_collaborators transport_up (fun _ _ => ["view_profile"]))
              AnonymousUser (alice_profile "closed") (demo_world 0))
    as (_ & Hup & _).
  - intros v. reflexivity.
  - apply Hup. reflexivity.
Defined.

(** A profile with a stored mugshot: the same URL with Gravatar off and a
    keyword as default as with another default. *)
Lemma get_mugshot_url_stored_wins_witness :
  let f := {| self := {| profile_user := alice; mugshot := "ab12.png";
                         privacy := "open" |};
              world := demo_world 0 |} in
  fst (get_mugshot_url (C := demo_collaborators transport_up no_perms)
         (demo_cfg 2) f) = Ok (Some "/media/ab12.png").
Proof.
  intros f.
  destruct (get_mugshot_url_stored_wins
              (C := demo_collaborators transport_up no_perms)
              (demo_cfg 2) (demo_cfg 7) f) as [_ Hurl].
  - discriminate.
  - exact Hurl.
Defined.

(** [holiday.in.rome.JPG] and [x.jpg] uploaded for the same instance from
    the same state get the same path. *)
Lemma upload_to_mugshot_drops_the_stem_witness :
  upload_to_mugshot (C := demo_collaborators transport_up no_perms)
    (demo_cfg 2) (Some 7) "holiday.in.rome.JPG" (demo_world 0) =
  upload_to_mugshot (C := demo_collaborators transport_up no_perms)
    (demo_cfg 2) (Some 7) "x.jpg" (demo_world 0).
Proof.
  apply (upload_to_mugshot_drops_the_stem
           (C := demo_collaborators transport_up no_perms) (demo_cfg 2)
           (Some 7) "holiday.in.rome" "x" "JPG" "jpg" (demo_world 0));
    reflexivity.
Defined.

(** [README] has no dot: the path ends in [.readme]. *)
Lemma upload_to_mugshot_without_dot_witness :
  exists name,
    String.length name = 10%nat /\
    fst (upload_to_mugshot (C := demo_collaborators transport_up no_perms)
           (demo_cfg 2) None "README" (demo_world 0)) =
      Ok ("mugshots/" ++ name ++ ".readme")%string.
Proof.
  apply (upload_to_mugshot_without_dot
           (C := demo_collaborators transport_up no_perms) (demo_cfg 2)
           None "README" (demo_world 0)).
  reflexivity.
Defined.

(** alice asks for [alice@x.com], the address she has: two mails, both to
    that address. *)
Lemma change_email_to_current_address_witness :
  let C := demo_collaborators transport_up no_perms in
  let f := alice_frame pending_key "" (midnight 734139) in
  exists c1 c2,
    sent_during (world f)
      (world (snd (change_email (C := C) (demo_cfg 2) "alice@x.com" f)))
      = [c1; c2] /\
    recipient_list (mail c1) = ["alice@x.com"] /\
    recipient_list (mail c2) = ["alice@x.com"].
Proof.
  intros C f.
  destruct (change_email_to_current_address (C := C) (demo_cfg 2) f)
    as (c1 & c2 & row & Hsent & Hto1 & Hto2 & _).
  - reflexivity.
  - reflexivity.
  - exists c1, c2. split; [exact Hsent|]. split; [exact Hto1 | exact Hto2].
Defined.

(** The upload path on concrete names. *)
Example upload_to_mugshot_runs :
  fst (upload_to_mugshot (C := demo_collaborators transport_up no_perms)
         (demo_cfg 2) (Some 7) "Me.At.Home.PNG" (demo_world 0))
    = Ok "mugshots/a000070000.png" /\
  fst (upload_to_mugshot (C := demo_collaborators transport_up no_perms)
         (demo_cfg 2) None "noext" (demo_world 0))
    = Ok "mugshots/a0000None0.noext" /\
  split DOT "a.B.JPG" = ["a"; "B"; "JPG"] /\
  split DOT "" = [""] /\
  split DOT "x." = ["x"; ""] /\
  split DOT ".." = [""; ""; ""] /\
  str_id (Some (-5)) = "-5".
Proof. repeat split; reflexivity. Qed.

(** ** The settings of [userina] *)

Section UserinaMore.

(** X19: each of the two [userina] settings follows its own attribute of
    the project's settings and no other.  Setting any other attribute,
    the [USERENA_] ones among them, leaves both as they are; a value the
    project gives is taken as it is; and with the attribute missing the
    values are [2] and ['ALREADY_VERIFIED']. *)
Theorem userina_settings_own_attribute (settings : gmap string pyval)
    (other : string) (v : pyval) :
  other <> "USERINA_VERIFICATION_DAYS" -> other <> "USERINA_VERIFIED" ->
  userina.USERINA_VERIFICATION_DAYS (<[other := v]> settings)
    = userina.USERINA_VERIFICATION_DAYS settings /\
  userina.USERINA_VERIFIED (<[other := v]> settings)
    = userina.USERINA_VERIFIED settings /\
  userina.USERINA_VERIFICATION_DAYS
    (<["USERINA_VERIFICATION_DAYS" := v]> settings) = v /\
  userina.USERINA_VERIFIED (<["USERINA_VERIFIED" := v]> settings) = v /\
  userina.USERINA_VERIFICATION_DAYS
    (delete "USERINA_VERIFICATION_DAYS" settings) = PyInt 2 /\
  userina.USERINA_VERIFIED (delete "USERINA_VERIFIED" settings)
    = PyStr "ALREADY_VERIFIED".
Proof.
  intros Hdays Hverified.
  unfold userina.USERINA_VERIFICATION_DAYS, userina.USERINA_VERIFIED, getattr.
  rewrite !lookup_insert_ne by assumption.
  rewrite !lookup_insert_eq, !lookup_delete_eq.
  repeat split; reflexivity.
Qed.

End UserinaMore.

(** A project that sets [USERENA_ACTIVATION_DAYS] to 7 and nothing else:
    the [userina] window is still the default of 2 days. *)
Lemma userina_settings_own_attribute_witness :
  userina.USERINA_VERIFICATION_DAYS
    (<["USERENA_ACTIVATION_DAYS" := PyInt 7]> ∅) = PyInt 2 /\
  userina.USERINA_VERIFIED
    (<["USERENA_ACTIVATION_DAYS" := PyInt 7]> ∅) = PyStr "ALREADY_VERIFIED".
Proof.
  destruct (userina_settings_own_attribute ∅ "USERENA_ACTIVATION_DAYS" (PyInt 7))
    as (Hdays & Hverified & _); [discriminate | discriminate |].
  rewrite Hdays, Hverified. split; reflexivity.
Defined.

(** alice asks for [new@x.com] with the transport up: the first mail
    made is the old-address mail of the stored row, and the context of
    the mails carries the stored key. *)
Lemma change_email_mails_the_stored_key_witness :
  let C := demo_collaborators transport_up no_perms in
  let f := alice_frame pending_key "" (midnight 734139) in
  let out := change_email (C := C) (demo_cfg 2) "new@x.com" f in
  exists row c,
    db (world (snd out)) !! 1 = Some row /\
    sent_during (world f) (world (snd out)) !! 0%nat = Some c /\
    mail c = confirmation_mail_old (C := C) (demo_cfg 2) row /\
    confirmation_context (C := C) (demo_cfg 2) row !! "confirmation_key"
      = Some (CtxStr (pad_to 40 "a0000alice")).
Proof.
  intros C f out.
  destruct (change_email_mails_the_stored_key (C := C) (demo_cfg 2)
              "new@x.com" f)
    as (row & Hdb & Hself & (c & Hfirst & Hmail) & _ & Hkey & _).
  - reflexivity.
  - exists row, c. split; [exact Hdb|]. split; [exact Hfirst|].
    split; [exact Hmail|]. rewrite Hkey. rewrite <- Hself. reflexivity.
Defined.
